(** * go-langserver: signature help and path/URI helpers

    A shallow embedding of [langserver/signature.go] and of the path and
    URI helpers of the [langserver] package, together with the properties
    the specification states about them.

    Go strings are byte sequences; they are embedded as [string] (a
    sequence of 8-bit [ascii]).  Go [int] values that are lengths or
    indices are embedded as [Z]. *)

From Stdlib Require Import ZArith List String Ascii Bool Lia.
Import ListNotations.

Open Scope string_scope.
Open Scope Z_scope.

(** ** Errors and panics

    A Go function that returns [(v, err)] and whose callers only ask
    whether [err] is nil is an [option]; a nil pointer result is [None] as
    well.  A run-time panic is kept apart from both, as the [Panic] of
    [exec]. *)

Definition bind {A B : Type} (m : option A) (k : A -> option B) : option B :=
  match m with
  | Some a => k a
  | None => None
  end.

Notation "x <- m ;; k" := (bind m (fun x => k))
  (at level 61, m at next level, right associativity).
Notation "' p <- m ;; k" := (bind m (fun x => let p := x in k))
  (at level 61, p pattern, m at next level, right associativity).

Inductive exec (A : Type) : Type :=
| Ret (a : A)
| Panic.

Arguments Ret {A} a.
Arguments Panic {A}.

Definition exec_bind {A B : Type} (m : exec A) (k : A -> exec B) : exec B :=
  match m with
  | Ret a => k a
  | Panic => Panic
  end.

Notation "x <~ m ;; k" := (exec_bind m (fun x => k))
  (at level 61, m at next level, right associativity).
Notation "' p <~ m ;; k" := (exec_bind m (fun x => let p := x in k))
  (at level 61, p pattern, m at next level, right associativity).

(** ** The parts of Go's [strings] package the code calls

    [take n s] is [s[:n]] and [drop n s] is [s[n:]] for indices in range. *)

Module strings.

Fixpoint take (n : nat) (s : string) : string :=
  match n, s with
  | S n', String c s' => String c (take n' s')
  | _, _ => EmptyString
  end.

Fixpoint drop (n : nat) (s : string) : string :=
  match n, s with
  | S n', String _ s' => drop n' s'
  | _, _ => s
  end.

(** [len(s) >= len(prefix) && s[:len(prefix)] == prefix] *)
Definition HasPrefix (s prefix : string) : bool :=
  (length prefix <=? length s)%nat && (take (length prefix) s =? prefix)%string.

(** [len(s) >= len(suffix) && s[len(s)-len(suffix):] == suffix] *)
Definition HasSuffix (s suffix : string) : bool :=
  (length suffix <=? length s)%nat
  && (drop (length s - length suffix) s =? suffix)%string.

(** Index of the first instance of [substr] in [s], or -1. *)
Fixpoint Index (s substr : string) : Z :=
  if HasPrefix s substr then 0
  else match s with
       | EmptyString => -1
       | String _ s' => let i := Index s' substr in
                        if i <? 0 then -1 else i + 1
       end.

Definition Contains (s substr : string) : bool := Index s substr >=? 0.

(** [Cut] slices [s] around the first instance of [sep]. *)
Definition Cut (s sep : string) : string * string * bool :=
  let i := Index s sep in
  if i >=? 0
  then (take (Z.to_nat i) s, drop (Z.to_nat i + length sep) s, true)
  else (s, "", false).

Definition TrimPrefix (s prefix : string) : string :=
  if HasPrefix s prefix then drop (length prefix) s else s.

Fixpoint Join (elems : list string) (sep : string) : string :=
  match elems with
  | [] => ""
  | [e] => e
  | e :: rest => e ++ sep ++ Join rest sep
  end.

(** Replaces the first [k] non-overlapping instances of a non-empty
    [old], left to right. *)
Fixpoint replaceN (k : nat) (s old new : string) : string :=
  match k with
  | O => s
  | S k' =>
      let j := Index s old in
      if j <? 0 then s
      else take (Z.to_nat j) s ++ new
           ++ replaceN k' (drop (Z.to_nat j + length old) s) old new
  end.

(** [Replace(s, old, new, n)]; a negative [n] puts no limit on the number
    of replacements.  The code only calls it with the non-empty
    [old = "()"]; the rune-wise behaviour of Go for an empty [old] is not
    modelled. *)
Definition Replace (s old new : string) (n : Z) : string :=
  if (old =? new)%string || (n =? 0) then s
  else replaceN (if n <? 0 then S (length s) else Z.to_nat n) s old new.

(** Number of non-overlapping instances of a non-empty [substr]. *)
Fixpoint countN (fuel : nat) (s substr : string) : Z :=
  match fuel with
  | O => 0
  | S f =>
      let j := Index s substr in
      if j <? 0 then 0
      else 1 + countN f (drop (Z.to_nat j + length substr) s) substr
  end.

Definition Count (s substr : string) : Z := countN (S (length s)) s substr.

Definition toLowerByte (c : ascii) : ascii :=
  let n := nat_of_ascii c in
  if ((65 <=? n) && (n <=? 90))%nat then ascii_of_nat (n + 32) else c.

(** [ToLower] on ASCII input (the only input it gets here is a scheme). *)
Fixpoint ToLower (s : string) : string :=
  match s with
  | EmptyString => EmptyString
  | String c s' => String (toLowerByte c) (ToLower s')
  end.

End strings.

(** ** The part of Go's [net/url] that [uriToPath] relies on

  [Parse] follows the standard library (Go 1.12 and later, where a URL
  holding an ASCII control byte is refused).  The validation of the
  authority component is a parameter of the platform, see [Platform]. *)

Module url.

Record URL := mkURL {
  Scheme : string;
  Opaque : string;
  Host : string;
  Path : string;
  RawQuery : string;
  Fragment : string
}.

Inductive encoding := encodePath | encodeQueryComponent | encodeFragment.

Definition byte_in (lo hi : nat) (c : ascii) : bool :=
  let n := nat_of_ascii c in ((lo <=? n) && (n <=? hi))%nat.

Definition ishex (c : ascii) : bool :=
  byte_in 48 57 c || byte_in 97 102 c || byte_in 65 70 c.

Definition unhex (c : ascii) : nat :=
  let n := nat_of_ascii c in
  if byte_in 48 57 c then (n - 48)%nat
  else if byte_in 97 102 c then (n - 97 + 10)%nat
  else if byte_in 65 70 c then (n - 65 + 10)%nat
  else 0%nat.

(** [unescape] for the modes used on paths, fragments and query
    components: checks that every ['%'] starts a well-formed escape and
    decodes it; [None] is an [EscapeError]. *)
Fixpoint unescape (s : string) (mode : encoding) : option string :=
  match s with
  | EmptyString => Some EmptyString
  | String c rest =>
      if (c =? "%")%char then
        match rest with
        | String a (String b rest') =>
            if ishex a && ishex b then
              t <- unescape rest' mode ;;
              Some (String (ascii_of_nat (unhex a * 16 + unhex b)) t)
            else None
        | _ => None
        end
      else
        t <- unescape rest mode ;;
        Some (String (if (c =? "+")%char
                      then match mode with
                           | encodeQueryComponent => " "%char
                           | _ => c
                           end
                      else c) t)
  end.

(** A byte below 0x20 or equal to 0x7f. *)
Fixpoint stringContainsCTLByte (s : string) : bool :=
  match s with
  | EmptyString => false
  | String c s' =>
      let b := nat_of_ascii c in
      ((b <? 32) || (b =? 127))%nat || stringContainsCTLByte s'
  end.

(** The loop of [getScheme]: [i] is the index of the byte at the head of
    [rest]; [None] is the error "missing protocol scheme". *)
Fixpoint getScheme_from (rawURL : string) (i : nat) (rest : string)
  : option (string * string) :=
  match rest with
  | EmptyString => Some ("", rawURL)
  | String c rest' =>
      if byte_in 97 122 c || byte_in 65 90 c then
        getScheme_from rawURL (S i) rest'
      else if byte_in 48 57 c || (c =? "+")%char || (c =? "-")%char
              || (c =? ".")%char then
        if (i =? 0)%nat then Some ("", rawURL)
        else getScheme_from rawURL (S i) rest'
      else if (c =? ":")%char then
        if (i =? 0)%nat then None
        else Some (strings.take i rawURL, rest')
      else Some ("", rawURL)
  end.

Definition getScheme (rawURL : string) : option (string * string) :=
  getScheme_from rawURL 0 rawURL.

Section Parse.

(** [parseAuthority] of net/url, reduced to the host it yields
    ([None] when it reports an error). *)
Variable parseAuthority : string -> option string.

Definition parse (rawURL : string) (viaRequest : bool) : option URL :=
  if stringContainsCTLByte rawURL then None
  else if (rawURL =? "")%string && viaRequest then None
  else if (rawURL =? "*")%string then Some (mkURL "" "" "" "*" "" "")
  else
    '(scheme, rest) <- getScheme rawURL ;;
    let scheme := strings.ToLower scheme in
    let '(rest, rawQuery) :=
      if strings.HasSuffix rest "?" && (strings.Count rest "?" =? 1)
      then (strings.take (length rest - 1) rest, "")
      else let '(before, after, _) := strings.Cut rest "?" in
           (before, after) in
    if negb (strings.HasPrefix rest "/") && negb (scheme =? "")%string
    then Some (mkURL scheme rest "" "" rawQuery "")
    else if negb (strings.HasPrefix rest "/") && viaRequest then None
    else if negb (strings.HasPrefix rest "/")
            && (let '(segment, _, _) := strings.Cut rest "/" in
                strings.Contains segment ":")
    then None
    else
      '(host, rest) <-
        (if (negb (scheme =? "")%string
             || (negb viaRequest && negb (strings.HasPrefix rest "///")))
            && strings.HasPrefix rest "//"
         then
           let authority := strings.drop 2 rest in
           let i := strings.Index authority "/" in
           let '(authority, rest) :=
             if i >=? 0
             then (strings.take (Z.to_nat i) authority,
                   strings.drop (Z.to_nat i) authority)
             else (authority, "") in
           host <- parseAuthority authority ;;
           Some (host, rest)
         else Some ("", rest)) ;;
      path <- unescape rest encodePath ;;
      Some (mkURL scheme "" host path rawQuery "").

Definition Parse (rawURL : string) : option URL :=
  let '(u, frag, _) := strings.Cut rawURL "#" in
  url <- parse u false ;;
  if (frag =? "")%string then Some url
  else
    f <- unescape frag encodeFragment ;;
    Some (mkURL (Scheme url) (Opaque url) (Host url) (Path url)
                (RawQuery url) f).

End Parse.

End url.

(** ** Path and URI helpers of the [langserver] package

    What the helpers take from the platform and from the standard library
    without this package fixing it. *)

Class Platform := {
  (** [os.PathSeparator] *)
  PathSeparator : ascii;
  (** [runtime.GOOS] *)
  GOOS : string;
  (** [filepath.Clean] *)
  filepath_Clean : string -> string;
  (** net/url's check of a URL's authority component *)
  parseAuthority : string -> option string
}.

Section Util.

Context {platform : Platform}.

Definition separator : string := String PathSeparator EmptyString.

Definition PathHasPrefix (s prefix : string) : bool :=
  let prefixSlash :=
    if negb (prefix =? "")%string && negb (strings.HasSuffix prefix separator)
    then prefix ++ separator
    else "" in
  (s =? prefix)%string || strings.HasPrefix s prefixSlash.

Definition PathTrimPrefix (s prefix : string) : string :=
  if (s =? prefix)%string then ""
  else
    let prefix :=
      if negb (strings.HasSuffix prefix separator)
      then prefix ++ separator else prefix in
    strings.TrimPrefix s prefix.

Definition pathEqual (a b : string) : bool :=
  (PathTrimPrefix a b =? "")%string.

(** IsVendorDir tells if the specified directory is a vendor directory. *)
Definition IsVendorDir (dir : string) : bool :=
  strings.HasPrefix dir "vendor/" || strings.Contains dir "/vendor/".

(** isURI tells if s denotes an URI *)
Definition isURI (s : string) : bool := strings.HasPrefix s "file:///".

(** pathToURI converts given absolute path to file URI *)
Definition pathToURI (path : string) : string := "file://" ++ path.

(** uriToPath converts given file URI to path.  The error of [url.Parse]
    is dropped, so a URI it refuses leaves [comps] nil and the read of
    [comps.Path] panics; on windows [path[1:]] panics on an empty path. *)
Definition uriToPath (uri : string) : exec string :=
  match url.Parse parseAuthority uri with
  | None => Panic
  | Some comps =>
      let path := url.Path comps in
      if (GOOS =? "windows")%string then
        match path with
        | EmptyString => Panic
        | String _ _ => Ret (filepath_Clean (strings.drop 1 path))
        end
      else Ret path
  end.

End Util.

(** A platform to run the helpers on: Linux, where the separator is the
    slash and [filepath.Clean] is never reached; of authorities only the
    empty one of a local file URI ([file:///path]) is accepted. *)
Definition linux : Platform := {|
  PathSeparator := "/";
  GOOS := "linux";
  filepath_Clean := fun path => path;
  parseAuthority :=
    fun authority => if (authority =? "")%string then Some "" else None
|}.

(** The segments of a slash-separated path: the pieces between
    consecutive ['/'] bytes (["a/b"] has segments ["a"] and ["b"],
    ["a/"] has ["a"] and the empty segment). *)
Fixpoint segments (s : string) : list string :=
  match s with
  | EmptyString => [EmptyString]
  | String c s' =>
      if (c =? "/")%char then EmptyString :: segments s'
      else match segments s' with
           | [] => [String c EmptyString]
           | seg :: rest => String c seg :: rest
           end
  end.

(** ** Syntax trees, type information and the loaded program

    The node variants of [go/ast] that the handler tells apart; every other
    kind of node is [NOther] (or [EOther] for an expression), which keeps
    its extent only. *)

Module token.

Definition Pos := Z.
Definition NoPos : Pos := 0.
Definition IsValid (p : Pos) : bool := negb (p =? NoPos).

Record File := { FileName : string; FileBase : Z; FileSize : Z }.
Definition FileSet := list File.

End token.

Module ast.

Record Ident := { NamePos : token.Pos; Name : string }.

Record CallExprOf (E : Type) := {
  Fun : E;
  Lparen : token.Pos;
  Args : list E;
  Rparen : token.Pos
}.
Arguments Fun {E} _.
Arguments Lparen {E} _.
Arguments Args {E} _.
Arguments Rparen {E} _.

#[warnings="-register-all"]
Inductive Expr :=
| EIdent (id : Ident)
| ESelector (X : Expr) (Sel : Ident)
| ECall (call : CallExprOf Expr)
| EOther (from to : token.Pos).

Definition CallExpr := CallExprOf Expr.

Record Field := { Names : list Ident; Field_Type : Expr }.
Record FieldList := { List : list Field }.
Record FuncType := { Params : FieldList; Results : option FieldList }.
Record CommentGroup := { Comments : list string }.
Record BlockStmt := { Lbrace : token.Pos; Rbrace : token.Pos }.

Record FuncDecl := {
  Doc : option CommentGroup;
  Recv : option FieldList;
  FuncDecl_Name : Ident;
  FuncDecl_Type : FuncType;
  Body : option BlockStmt
}.

Inductive Node :=
| NExpr (e : Expr)
| NFuncDecl (d : FuncDecl)
| NOther (from to : token.Pos).

Definition Ident_End (x : Ident) : token.Pos :=
  NamePos x + Z.of_nat (length (Name x)).

Fixpoint Pos (e : Expr) : token.Pos :=
  match e with
  | EIdent id => NamePos id
  | ESelector X _ => Pos X
  | ECall call => Pos (Fun call)
  | EOther from _ => from
  end.

Definition End (e : Expr) : token.Pos :=
  match e with
  | EIdent id => Ident_End id
  | ESelector _ Sel => Ident_End Sel
  | ECall call => Rparen call + 1
  | EOther _ to => to
  end.

(** The type assertions of a node to a call expression and to a function
  declaration. *)
Definition asCallExpr (n : Node) : option CallExpr :=
  match n with
  | NExpr (ECall call) => Some call
  | _ => None
  end.

Definition asFuncDecl (n : Node) : option FuncDecl :=
  match n with
  | NFuncDecl d => Some d
  | _ => None
  end.

End ast.

Module types.

(** A type, as far as the handler looks at it: its canonical string. *)
Record Type_ := { TypeString : string }.

(** An object, as far as the handler looks at it: where it is declared. *)
Record Object := { Pos : token.Pos }.

End types.

Module loader.

(** [PathEnclosingInterval start end] is the chain of nodes enclosing the
    interval, innermost first (the package and the exactness flag that
    the Go method also returns are dropped by every caller). *)
Record Program := {
  Fset : token.FileSet;
  PathEnclosingInterval : token.Pos -> token.Pos -> list ast.Node
}.

(** [TypeOf] is [None] where the package records no type for the
    expression (Go returns a nil [types.Type]), [ObjectOf] is [None]
    where the identifier denotes no object. *)
Record PackageInfo := {
  ObjectOf : ast.Ident -> option types.Object;
  TypeOf : ast.Expr -> option types.Type_
}.

End loader.

Module printer.

Definition RawFormat : Z := Z.shiftl 1 0.
Definition TabIndent : Z := Z.shiftl 1 1.
Definition UseSpaces : Z := Z.shiftl 1 2.
Definition SourcePos : Z := Z.shiftl 1 3.

Record Config := { Mode : Z; Tabwidth : Z }.

End printer.

Module lsp.

Record Position := { Line : Z; Character : Z }.
Record TextDocumentIdentifier := { URI : string }.
Record TextDocumentPositionParams := {
  TextDocument : TextDocumentIdentifier;
  Position_ : Position
}.

Record ParameterInformation := { ParameterInformation_Label : string }.

Record SignatureInformation := {
  Label : string;
  Documentation : string;
  Parameters : list ParameterInformation
}.

Record SignatureHelp := {
  Signatures : list SignatureInformation;
  ActiveSignature : Z;
  ActiveParameter : Z
}.

End lsp.

(** What [signature.go] takes from [go/printer] and [go/ast] without
    fixing it: the pretty-printer ([None] when [Fprint] reports an error)
    and the text of a comment group. *)
Class Toolchain := {
  Fprint : printer.Config -> token.FileSet -> ast.Node -> option string;
  CommentGroup_Text : ast.CommentGroup -> string
}.

(** ** The signature-help handler *)

Inductive error :=
| invalidNodeError (msg : string)
| otherError (msg : string).

(** What [h.typecheck] hands back.  The method is declared elsewhere in the
    package; the handler is a function of its six results. *)
Record TypecheckResult := {
  tc_fset : token.FileSet;
  tc_node : option ast.Ident;
  tc_nodes : list ast.Node;
  tc_program : loader.Program;
  tc_pkg : loader.PackageInfo;
  tc_err : option error
}.

(** The handler's receiver, as far as [signature.go] uses it. *)
Record LangHandler := {
  typecheck : string -> lsp.Position -> TypecheckResult
}.

Section Signature.

Context {toolchain : Toolchain}.

Import ast loader lsp.

(** callExpr climbs AST tree up until call expression *)
Fixpoint callExpr (fset : token.FileSet) (nodes : list Node) : option CallExpr :=
  match nodes with
  | [] => None
  | node :: rest =>
      match asCallExpr node with
      | Some call => Some call
      | None => callExpr fset rest
      end
  end.

(** The loop of [ident]: [bound] is how many more levels may be looked at
    ([4 - i]). *)
Fixpoint ident_from (bound : nat) (path : list Node) : option Ident :=
  match bound, path with
  | S bound', node :: rest =>
      match node with
      | NExpr (EIdent t) => Some t
      | NExpr (ESelector _ Sel) => Some Sel
      | _ => ident_from bound' rest
      end
  | _, _ => None
  end.

(** ident looks for first ident node in the given path.
    handles idents and selectors *)
Definition ident (prog : Program) (pkg : PackageInfo) (node : Expr) : option Ident :=
  let path := PathEnclosingInterval prog (Pos node) (End node) in
  ident_from 4 path.

Fixpoint funcDecl_from (path : list Node) : option FuncDecl :=
  match path with
  | [] => None
  | node :: rest =>
      match asFuncDecl node with
      | Some decl => Some decl
      | None => funcDecl_from rest
      end
  end.

(** funcDecl returns AST node where function referenced by the given call
    expression was defined *)
Definition funcDecl (prog : Program) (pkg : PackageInfo) (node : CallExpr)
  : option FuncDecl :=
  match ident prog pkg (Fun node) with
  | None => None
  | Some id =>
      match ObjectOf pkg id with
      | None => None
      | Some o =>
          if negb (token.IsValid (types.Pos o)) then None
          else funcDecl_from
                 (PathEnclosingInterval prog (types.Pos o) (types.Pos o))
      end
  end.

(** asString returns string representation of given node *)
Definition nodeAsString (node : Node) (fset : token.FileSet) : string :=
  let cfg := {| printer.Mode := Z.lor printer.UseSpaces printer.TabIndent;
                printer.Tabwidth := 4 |} in
  match Fprint cfg fset node with
  | None => ""
  | Some buf => buf
  end.

(** The two loops of [parametersAsString]; [labels] is the slice built so
    far.  [pkg.TypeOf(field.Type).String()] panics on the nil type. *)
Fixpoint appendNames (labels : list string) (names : list Ident) (t : string)
  : list string :=
  match names with
  | [] => labels
  | name :: rest => appendNames (labels ++ [Name name ++ " " ++ t]) rest t
  end.

Fixpoint appendFields (labels : list string) (fields : list Field)
         (pkg : PackageInfo) : exec (list string) :=
  match fields with
  | [] => Ret labels
  | field :: rest =>
      match TypeOf pkg (Field_Type field) with
      | None => Panic
      | Some ty =>
          let t := types.TypeString ty in
          appendFields (appendNames labels (Names field) t) rest pkg
      end
  end.

(** parametersAsString returns string representations of function
    parameters *)
Definition parametersAsString (fields : FieldList) (pkg : PackageInfo)
  : exec (list string) :=
  appendFields [] (List fields) pkg.

(** The declaration [funcInfo] prints: no body, docs, or parameters. *)
Definition clone (fDecl : FuncDecl) : FuncDecl :=
  {| Doc := None;
     Recv := Recv fDecl;
     FuncDecl_Name := FuncDecl_Name fDecl;
     FuncDecl_Type := {| Params := {| List := [] |};
                         Results := Results (FuncDecl_Type fDecl) |};
     Body := None |}.

Fixpoint funcInfo_from (prog : Program) (pkg : PackageInfo) (path : list Node)
  : exec (string * list string * string) :=
  match path with
  | [] => Ret ("", [], "")
  | node :: rest =>
      match asCallExpr node with
      | None => funcInfo_from prog pkg rest
      | Some callExpr =>
          match funcDecl prog pkg callExpr with
          | None => Ret ("", [], "")
          | Some fDecl =>
              let doc := match Doc fDecl with
                         | Some d => CommentGroup_Text d
                         | None => ""
                         end in
              parameters <~ parametersAsString (Params (FuncDecl_Type fDecl)) pkg ;;
              let signature := nodeAsString (NFuncDecl (clone fDecl)) (Fset prog) in
              Ret (strings.Replace signature "()"
                     ("(" ++ strings.Join parameters ", " ++ ")") 1,
                   parameters, doc)
          end
      end
  end.

(** funcInfo returns declaration about given function call expression *)
Definition funcInfo (prog : Program) (pkg : PackageInfo) (node : Expr)
  : exec (string * list string * string) :=
  let path := PathEnclosingInterval prog (Pos node) (Pos node) in
  funcInfo_from prog pkg path.

(** The handler returns Go's pair of a result pointer and an error. *)
Definition handleTextDocumentSignatureHelp (h : LangHandler)
           (params : TextDocumentPositionParams)
  : exec (option SignatureHelp * option error) :=
  let tc := typecheck h (URI (TextDocument params)) (Position_ params) in
  match tc_err tc with
  | Some (otherError msg) => Ret (None, Some (otherError msg))
  | _ =>
      match callExpr (tc_fset tc) (tc_nodes tc) with
      | None => Ret (None, None)
      | Some call =>
          '(signature, parameters, doc) <~
             funcInfo (tc_program tc) (tc_pkg tc) (Fun call) ;;
          if (signature =? "")%string then Ret (None, None)
          else
            let info :=
              {| Label := signature;
                 Documentation := doc;
                 Parameters :=
                   map (fun p => {| ParameterInformation_Label := p |})
                       parameters |} in
            let activeParameter := Z.of_nat (List.length (Parameters info)) in
            let activeParameter :=
              if activeParameter >? 0 then activeParameter - 1
              else activeParameter in
            let numArguments := Z.of_nat (List.length (Args call)) in
            let activeParameter :=
              if activeParameter >? numArguments then numArguments
              else activeParameter in
            Ret (Some {| Signatures := [info];
                         ActiveSignature := 0;
                         ActiveParameter := activeParameter |}, None)
      end
  end.

End Signature.

(** ** Vocabulary of the specification

    [resolvedDecl] retraces, on the results of [typecheck], which call site
    the handler settles on and which declaration [funcInfo] prints for it:
    the first call expression on the enclosing path of the cursor, then the
    first call expression on the enclosing path of the start of its callee,
    then [funcDecl] of that one. *)

Section Vocabulary.

Context {toolchain : Toolchain}.

Import ast loader lsp.

Definition resolvedDecl (tc : TypecheckResult) : option (CallExpr * FuncDecl) :=
  match tc_err tc with
  | Some (otherError _) => None
  | _ =>
      call <- callExpr (tc_fset tc) (tc_nodes tc) ;;
      let prog := tc_program tc in
      c <- callExpr (Fset prog)
             (PathEnclosingInterval prog (Pos (Fun call)) (Pos (Fun call))) ;;
      d <- funcDecl prog (tc_pkg tc) c ;;
      Some (call, d)
  end.

(** The canonical string of the type the package records for an
    expression. *)
Definition typeString (pkg : PackageInfo) (e : Expr) : string :=
  match TypeOf pkg e with
  | Some ty => types.TypeString ty
  | None => ""
  end.

(** The labels of one parameter group: one per name, all with the type of
    the group. *)
Definition fieldLabels (pkg : PackageInfo) (field : Field) : list string :=
  map (fun name => Name name ++ " " ++ typeString pkg (Field_Type field))
      (Names field).

(** The labels of a parameter list, group after group. *)
Definition declaredLabels (pkg : PackageInfo) (fields : FieldList) : list string :=
  flat_map (fieldLabels pkg) (List fields).

(** The package records a type for the type expression of every group. *)
Definition typesRecorded (pkg : PackageInfo) (fields : FieldList) : bool :=
  forallb (fun field => match TypeOf pkg (Field_Type field) with
                        | Some _ => true
                        | None => false
                        end) (List fields).

(** The text of the documentation of a declaration. *)
Definition docText (d : FuncDecl) : string :=
  match Doc d with
  | Some g => CommentGroup_Text g
  | None => ""
  end.

(** The first identifier or selector name on a path, however deep. *)
Fixpoint headIdent (path : list Node) : option Ident :=
  match path with
  | [] => None
  | NExpr (EIdent t) :: _ => Some t
  | NExpr (ESelector _ Sel) :: _ => Some Sel
  | _ :: rest => headIdent rest
  end.

(** The number of parameters a parameter list declares: one per name, and
    one for a group without names. *)
Definition parameterCount (fields : FieldList) : nat :=
  list_sum (map (fun field => match Names field with
                              | [] => 1%nat
                              | names => List.length names
                              end) (List fields)).

End Vocabulary.

(** ** A small program to run the handler on

<<
    // Add adds.
    func Add(a, b int) int { return a + b }
    func Zero() int { return 0 }
    func main() { Add(1, ); Zero(); func(x int) {}(2) }
>>
    with [Add] declared at position 30, [Zero] at 80, and the three calls of
    [main] starting at 130, 150 and 170. *)

Module demo.

Import ast loader lsp.

Definition name (pos : token.Pos) (s : string) : Ident :=
  {| NamePos := pos; Name := s |}.

Definition AddDecl : FuncDecl := {|
  Doc := Some {| Comments := ["// Add adds."] |};
  Recv := None;
  FuncDecl_Name := name 30 "Add";
  FuncDecl_Type :=
    {| Params := {| List := [ {| Names := [name 34 "a"; name 37 "b"];
                                 Field_Type := EIdent (name 39 "int") |} ] |};
       Results := Some {| List := [ {| Names := [];
                                       Field_Type := EIdent (name 44 "int") |} ] |} |};
  Body := Some {| Lbrace := 48; Rbrace := 65 |}
|}.

Definition ZeroDecl : FuncDecl := {|
  Doc := None;
  Recv := None;
  FuncDecl_Name := name 80 "Zero";
  FuncDecl_Type :=
    {| Params := {| List := [] |};
       Results := Some {| List := [ {| Names := [];
                                       Field_Type := EIdent (name 87 "int") |} ] |} |};
  Body := Some {| Lbrace := 91; Rbrace := 102 |}
|}.

Definition MainDecl : FuncDecl := {|
  Doc := None;
  Recv := None;
  FuncDecl_Name := name 110 "main";
  FuncDecl_Type := {| Params := {| List := [] |}; Results := None |};
  Body := Some {| Lbrace := 117; Rbrace := 190 |}
|}.

Definition AddCall : CallExpr :=
  {| Fun := EIdent (name 130 "Add"); Lparen := 133;
     Args := [EOther 134 135]; Rparen := 137 |}.

Definition ZeroCall : CallExpr :=
  {| Fun := EIdent (name 150 "Zero"); Lparen := 154; Args := []; Rparen := 155 |}.

Definition LitCall : CallExpr :=
  {| Fun := EOther 170 184; Lparen := 184; Args := [EOther 185 186]; Rparen := 186 |}.

Definition file : Node := NOther 1 200.
Definition body : Node := NOther 117 191.

(** The enclosing paths of the positions the handler asks about. *)
Definition prog : Program := {|
  Fset := [ {| token.FileName := "main.go"; token.FileBase := 1; token.FileSize := 200 |} ];
  PathEnclosingInterval := fun start _ =>
    if start =? 30 then [NExpr (EIdent (name 30 "Add")); NFuncDecl AddDecl; file]
    else if start =? 80 then [NExpr (EIdent (name 80 "Zero")); NFuncDecl ZeroDecl; file]
    else if start =? 130 then
      [NExpr (EIdent (name 130 "Add")); NExpr (ECall AddCall); NOther 130 138;
       body; NFuncDecl MainDecl; file]
    else if start =? 150 then
      [NExpr (EIdent (name 150 "Zero")); NExpr (ECall ZeroCall); NOther 150 156;
       body; NFuncDecl MainDecl; file]
    else if start =? 170 then
      [NOther 170 184; NExpr (ECall LitCall); NOther 170 187;
       body; NFuncDecl MainDecl; file]
    else [file]
|}.

Definition pkg : PackageInfo := {|
  ObjectOf := fun id =>
    if (Name id =? "Add")%string then Some {| types.Pos := 30 |}
    else if (Name id =? "Zero")%string then Some {| types.Pos := 80 |}
    else None;
  TypeOf := fun e =>
    match e with
    | EIdent id => if (Name id =? "int")%string
                   then Some {| types.TypeString := "int" |} else None
    | _ => None
    end
|}.

(** A printer for the declarations of the small programs.  It renders what
    [go/printer] renders of a function declaration without documentation
    and body: [func], the receiver in parentheses, the name, the parameters
    in parentheses and the results (in parentheses unless there is exactly
    one, unnamed).  Types are identifiers or selections; any other
    expression is rendered as an underscore. *)
Fixpoint printExpr (e : Expr) : string :=
  match e with
  | EIdent id => Name id
  | ESelector X Sel => printExpr X ++ "." ++ Name Sel
  | _ => "_"
  end.

Definition printField (field : Field) : string :=
  match Names field with
  | [] => printExpr (Field_Type field)
  | names => strings.Join (map Name names) ", " ++ " "
             ++ printExpr (Field_Type field)
  end.

Definition printFields (fields : FieldList) : string :=
  strings.Join (map printField (List fields)) ", ".

Definition printResults (results : option FieldList) : string :=
  match results with
  | None => ""
  | Some fields =>
      match List fields with
      | [] => ""
      | [ {| Names := []; Field_Type := t |} ] => " " ++ printExpr t
      | _ => " (" ++ printFields fields ++ ")"
      end
  end.

Definition print (node : Node) : option string :=
  match node with
  | NFuncDecl d =>
      Some ("func "
            ++ match Recv d with
               | Some recv => "(" ++ printFields recv ++ ") "
               | None => ""
               end
            ++ Name (FuncDecl_Name d)
            ++ "(" ++ printFields (Params (FuncDecl_Type d)) ++ ")"
            ++ printResults (Results (FuncDecl_Type d)))
  | NExpr e => Some (printExpr e)
  | NOther _ _ => Some "_"
  end.

Definition lineFeed : string := String "010"%char "".

Definition tools : Toolchain := {|
  Fprint := fun _ _ node => print node;
  CommentGroup_Text := fun g =>
    strings.Join (map (fun c => strings.TrimPrefix c "// ") (Comments g)) lineFeed
    ++ lineFeed
|}.

(** [typecheck] on line 3: column 20 is inside the arguments of the call
    of [Add], column 30 inside those of [Zero], column 50 inside those of
    the function literal, any other column is in no call. *)
Definition handler : LangHandler := {|
  typecheck := fun _ position =>
    let inCall (c : CallExpr) :=
      [NExpr (ECall c); NOther (Pos (Fun c)) (Rparen c + 1); body;
       NFuncDecl MainDecl; file] in
    {| tc_fset := Fset prog;
       tc_node := None;
       tc_nodes := if Character position =? 20 then inCall AddCall
                   else if Character position =? 30 then inCall ZeroCall
                   else if Character position =? 50 then inCall LitCall
                   else [body; NFuncDecl MainDecl; file];
       tc_program := prog;
       tc_pkg := pkg;
       tc_err := Some (invalidNodeError "invalid node") |}
|}.

Definition at_column (column : Z) : TextDocumentPositionParams :=
  {| TextDocument := {| URI := "file:///src/main.go" |};
     Position_ := {| Line := 3; Character := column |} |}.

(** What [typecheck] hands the handler for the cursor at a column. *)
Definition snapshot (column : Z) : TypecheckResult :=
  typecheck handler (URI (TextDocument (at_column column)))
            (Position_ (at_column column)).

End demo.

(** An absolute path with a line feed in a file name. *)
Definition newline_path : string := "/tmp/a" ++ String "010"%char "b".

(** A second platform: Windows, with the part of [filepath.Clean] that
    shows on a path without [.], [..] and doubled separators, the change of
    slashes into backslashes. *)
Fixpoint backslashes (path : string) : string :=
  match path with
  | EmptyString => EmptyString
  | String c rest =>
      String (if (c =? "/")%char then "\"%char else c) (backslashes rest)
  end.

Definition windows : Platform := {|
  PathSeparator := "\";
  GOOS := "windows";
  filepath_Clean := backslashes;
  parseAuthority :=
    fun authority => if (authority =? "")%string then Some "" else None
|}.

(** Linux again, with an authority check that also lets the host
    [localhost] pass. *)
Definition localhost : Platform := {|
  PathSeparator := "/";
  GOOS := "linux";
  filepath_Clean := fun path => path;
  parseAuthority :=
    fun authority =>
      if (authority =? "")%string || (authority =? "localhost")%string
      then Some authority else None
|}.

(** ** A second small program

<<
    func Pair(int, int) int { ... }
    func (t T) Twice(x int) int { ... }
    func main() { Pair(1, 2); len(s); t.Twice(1) }
>>
    with [Pair] declared at position 210, [Twice] at 251, and the three
    calls of [main] starting at 330, 350 and 370.  [len] is a built-in: its
    object has no position. *)

Module demo2.

Import ast loader lsp.

Definition name := demo.name.

Definition int_at (pos : token.Pos) : Field :=
  {| Names := []; Field_Type := EIdent (name pos "int") |}.

Definition PairDecl : FuncDecl := {|
  Doc := None;
  Recv := None;
  FuncDecl_Name := name 210 "Pair";
  FuncDecl_Type :=
    {| Params := {| List := [int_at 215; int_at 220] |};
       Results := Some {| List := [int_at 225] |} |};
  Body := Some {| Lbrace := 229; Rbrace := 235 |}
|}.

Definition TwiceDecl : FuncDecl := {|
  Doc := None;
  Recv := Some {| List := [ {| Names := [name 246 "t"];
                               Field_Type := EIdent (name 248 "T") |} ] |};
  FuncDecl_Name := name 251 "Twice";
  FuncDecl_Type :=
    {| Params := {| List := [ {| Names := [name 257 "x"];
                                 Field_Type := EIdent (name 259 "int") |} ] |};
       Results := Some {| List := [int_at 264] |} |};
  Body := Some {| Lbrace := 268; Rbrace := 285 |}
|}.

Definition MainDecl : FuncDecl := {|
  Doc := None;
  Recv := None;
  FuncDecl_Name := name 310 "main";
  FuncDecl_Type := {| Params := {| List := [] |}; Results := None |};
  Body := Some {| Lbrace := 317; Rbrace := 390 |}
|}.

Definition PairCall : CallExpr :=
  {| Fun := EIdent (name 330 "Pair"); Lparen := 334;
     Args := [EOther 335 336; EOther 338 339]; Rparen := 339 |}.

Definition LenCall : CallExpr :=
  {| Fun := EIdent (name 350 "len"); Lparen := 353;
     Args := [EIdent (name 354 "s")]; Rparen := 355 |}.

Definition TwiceCallee : Expr := ESelector (EIdent (name 370 "t")) (name 372 "Twice").

Definition TwiceCall : CallExpr :=
  {| Fun := TwiceCallee; Lparen := 377; Args := [EOther 378 379]; Rparen := 379 |}.

Definition file : Node := NOther 201 400.
Definition body : Node := NOther 317 391.

Definition around (c : CallExpr) : list Node :=
  [NExpr (ECall c); NOther (Pos (Fun c)) (Rparen c + 1); body;
   NFuncDecl MainDecl; file].

Definition prog : Program := {|
  Fset := [ {| token.FileName := "pair.go"; token.FileBase := 201; token.FileSize := 200 |} ];
  PathEnclosingInterval := fun start end_ =>
    if start =? 210 then [NExpr (EIdent (name 210 "Pair")); NFuncDecl PairDecl; file]
    else if start =? 251 then [NExpr (EIdent (name 251 "Twice")); NFuncDecl TwiceDecl; file]
    else if start =? 330 then NExpr (Fun PairCall) :: around PairCall
    else if start =? 350 then NExpr (Fun LenCall) :: around LenCall
    else if start =? 370 then
      if end_ =? 370 then
        NExpr (EIdent (name 370 "t")) :: NExpr TwiceCallee :: around TwiceCall
      else NExpr TwiceCallee :: around TwiceCall
    else [file]
|}.

Definition pkg : PackageInfo := {|
  ObjectOf := fun id =>
    if (Name id =? "Pair")%string then Some {| types.Pos := 210 |}
    else if (Name id =? "Twice")%string then Some {| types.Pos := 251 |}
    else if (Name id =? "len")%string then Some {| types.Pos := token.NoPos |}
    else None;
  TypeOf := TypeOf demo.pkg
|}.

(** [typecheck] on line 5: column 20 is inside the arguments of the call
    of [Pair], column 30 inside those of [len], column 40 inside those of
    [t.Twice]. *)
Definition handler : LangHandler := {|
  typecheck := fun _ position =>
    {| tc_fset := Fset prog;
       tc_node := None;
       tc_nodes := if Character position =? 20 then around PairCall
                   else if Character position =? 30 then around LenCall
                   else if Character position =? 40 then around TwiceCall
                   else [body; NFuncDecl MainDecl; file];
       tc_program := prog;
       tc_pkg := pkg;
       tc_err := Some (invalidNodeError "invalid node") |}
|}.

Definition at_column (column : Z) : TextDocumentPositionParams :=
  {| TextDocument := {| URI := "file:///src/pair.go" |};
     Position_ := {| Line := 5; Character := column |} |}.

Definition snapshot (column : Z) : TypecheckResult :=
  typecheck handler (URI (TextDocument (at_column column)))
            (Position_ (at_column column)).

End demo2.

(** The answer to the request inside the call of [Add] of the first
    program. *)
Definition AddHelp : lsp.SignatureHelp := {|
  lsp.Signatures :=
    [ {| lsp.Label := "func Add(a int, b int) int";
         lsp.Documentation := "Add adds." ++ demo.lineFeed;
         lsp.Parameters := [ {| lsp.ParameterInformation_Label := "a int" |};
                             {| lsp.ParameterInformation_Label := "b int" |} ] |} ];
  lsp.ActiveSignature := 0;
  lsp.ActiveParameter := 1
|}.

(** ** A third small program, in two packages

<<
    // package main, chain.go
    type T struct{}
    func (x T) b(n int) T { return x }
    func (x T) d(s string, k int) T { return x }
    func main() { var x T; x.b(1).d("u", ); other.Greet("x") }

    // package other, other.go
    func Greet(name string) { ... }
>>
    with [b] declared at position 431, [d] at 471 and [Greet] at 610; the
    chain of calls starts at 530 and the call of [other.Greet] at 560.
    [chain.go] spans the positions 401 to 600; the package of [main]
    records types for the expressions of that file only. *)

Module demo3.

Import ast loader lsp.

Definition name := demo.name.

Definition receiver (pos : token.Pos) : FieldList :=
  {| List := [ {| Names := [name pos "x"];
                  Field_Type := EIdent (name (pos + 2) "T") |} ] |}.

Definition result (pos : token.Pos) : option FieldList :=
  Some {| List := [ {| Names := []; Field_Type := EIdent (name pos "T") |} ] |}.

Definition BDecl : FuncDecl := {|
  Doc := None;
  Recv := Some (receiver 426);
  FuncDecl_Name := name 431 "b";
  FuncDecl_Type :=
    {| Params := {| List := [ {| Names := [name 433 "n"];
                                 Field_Type := EIdent (name 435 "int") |} ] |};
       Results := result 440 |};
  Body := Some {| Lbrace := 442; Rbrace := 453 |}
|}.

Definition DDecl : FuncDecl := {|
  Doc := None;
  Recv := Some (receiver 466);
  FuncDecl_Name := name 471 "d";
  FuncDecl_Type :=
    {| Params := {| List := [ {| Names := [name 473 "s"];
                                 Field_Type := EIdent (name 475 "string") |};
                              {| Names := [name 483 "k"];
                                 Field_Type := EIdent (name 485 "int") |} ] |};
       Results := result 490 |};
  Body := Some {| Lbrace := 492; Rbrace := 503 |}
|}.

Definition MainDecl : FuncDecl := {|
  Doc := None;
  Recv := None;
  FuncDecl_Name := name 515 "main";
  FuncDecl_Type := {| Params := {| List := [] |}; Results := None |};
  Body := Some {| Lbrace := 522; Rbrace := 580 |}
|}.

Definition GreetDecl : FuncDecl := {|
  Doc := None;
  Recv := None;
  FuncDecl_Name := name 610 "Greet";
  FuncDecl_Type :=
    {| Params := {| List := [ {| Names := [name 616 "name"];
                                 Field_Type := EIdent (name 621 "string") |} ] |};
       Results := None |};
  Body := Some {| Lbrace := 629; Rbrace := 640 |}
|}.

(** [x.b(1)] *)
Definition InnerCall : CallExpr :=
  {| Fun := ESelector (EIdent (name 530 "x")) (name 532 "b"); Lparen := 533;
     Args := [EOther 534 535]; Rparen := 535 |}.

(** [x.b(1).d("u", )] *)
Definition OuterCall : CallExpr :=
  {| Fun := ESelector (ECall InnerCall) (name 537 "d"); Lparen := 538;
     Args := [EOther 539 542]; Rparen := 544 |}.

(** [other.Greet("x")] *)
Definition GreetCall : CallExpr :=
  {| Fun := ESelector (EIdent (name 560 "other")) (name 566 "Greet");
     Lparen := 571; Args := [EOther 572 575]; Rparen := 575 |}.

Definition file : Node := NOther 401 600.
Definition otherFile : Node := NOther 601 700.
Definition body : Node := NOther 522 581.

Definition around (c : CallExpr) : list Node :=
  [NExpr (ECall c); NOther (Pos (Fun c)) (Rparen c + 1); body;
   NFuncDecl MainDecl; file].

(** The enclosing paths: at 530 the identifier [x] lies in the selection
    [x.b], that in the call [x.b(1)], that in the selection of [d], and
    that in the outer call. *)
Definition prog : Program := {|
  Fset := [ {| token.FileName := "chain.go"; token.FileBase := 401; token.FileSize := 199 |};
            {| token.FileName := "other.go"; token.FileBase := 601; token.FileSize := 99 |} ];
  PathEnclosingInterval := fun start end_ =>
    if start =? 431 then [NExpr (EIdent (name 431 "b")); NFuncDecl BDecl; file]
    else if start =? 471 then [NExpr (EIdent (name 471 "d")); NFuncDecl DDecl; file]
    else if start =? 610 then
      [NExpr (EIdent (name 610 "Greet")); NFuncDecl GreetDecl; otherFile]
    else if start =? 530 then
      if end_ =? 530 then
        NExpr (EIdent (name 530 "x")) :: NExpr (Fun InnerCall)
          :: NExpr (ECall InnerCall) :: NExpr (Fun OuterCall) :: around OuterCall
      else if end_ =? 533 then
        NExpr (Fun InnerCall) :: NExpr (ECall InnerCall) :: NExpr (Fun OuterCall)
          :: around OuterCall
      else NExpr (Fun OuterCall) :: around OuterCall
    else if start =? 560 then
      if end_ =? 560 then
        NExpr (EIdent (name 560 "other")) :: NExpr (Fun GreetCall) :: around GreetCall
      else NExpr (Fun GreetCall) :: around GreetCall
    else [file]
|}.

(** The package of [main]: its objects, and the types of the expressions
    of [chain.go]. *)
Definition pkg : PackageInfo := {|
  ObjectOf := fun id =>
    if (Name id =? "b")%string then Some {| types.Pos := 431 |}
    else if (Name id =? "d")%string then Some {| types.Pos := 471 |}
    else if (Name id =? "Greet")%string then Some {| types.Pos := 610 |}
    else if (Name id =? "x")%string then Some {| types.Pos := 527 |}
    else None;
  TypeOf := fun e =>
    if (401 <=? Pos e) && (Pos e <? 600) then
      match e with
      | EIdent id => Some {| types.TypeString := Name id |}
      | _ => None
      end
    else None
|}.

(** [typecheck] on line 5: column 40 is inside the arguments of the call
    of [d], column 60 inside those of [other.Greet]. *)
Definition handler : LangHandler := {|
  typecheck := fun _ position =>
    {| tc_fset := Fset prog;
       tc_node := None;
       tc_nodes := if Character position =? 40 then around OuterCall
                   else if Character position =? 60 then around GreetCall
                   else [body; NFuncDecl MainDecl; file];
       tc_program := prog;
       tc_pkg := pkg;
       tc_err := Some (invalidNodeError "invalid node") |}
|}.

Definition at_column (column : Z) : TextDocumentPositionParams :=
  {| TextDocument := {| URI := "file:///src/chain.go" |};
     Position_ := {| Line := 5; Character := column |} |}.

Definition snapshot (column : Z) : TypecheckResult :=
  typecheck handler (URI (TextDocument (at_column column)))
            (Position_ (at_column column)).

End demo3.

(** * Properties *)

(** ** Strings *)

Lemma append_nil_r (s : string) : s ++ "" = s.
Proof. induction s; simpl; congruence. Qed.

Lemma append_assoc (a b c : string) : (a ++ b) ++ c = a ++ b ++ c.
Proof. induction a; simpl; congruence. Qed.

Lemma length_append (a b : string) :
  length (a ++ b) = (length a + length b)%nat.
Proof. induction a; simpl; congruence. Qed.

Lemma take_append (a b : string) : strings.take (length a) (a ++ b) = a.
Proof. induction a; simpl; [destruct b; reflexivity | congruence]. Qed.

Lemma drop_append (a b : string) : strings.drop (length a) (a ++ b) = b.
Proof. induction a; simpl; [destruct b; reflexivity | assumption]. Qed.

Lemma take_drop (n : nat) (s : string) :
  strings.take n s ++ strings.drop n s = s.
Proof.
  revert s; induction n; intros [|c s]; simpl; try reflexivity.
  now rewrite IHn.
Qed.


Lemma HasPrefix_nil (s : string) : strings.HasPrefix s "" = true.
Proof. destruct s; reflexivity. Qed.

Lemma HasPrefix_cons (c d : ascii) (s p : string) :
  strings.HasPrefix (String c s) (String d p)
  = (c =? d)%char && strings.HasPrefix s p.
Proof.
  unfold strings.HasPrefix; simpl.
  destruct (c =? d)%char; destruct (length p <=? length s)%nat; reflexivity.
Qed.

Lemma HasPrefix_empty (d : ascii) (p : string) :
  strings.HasPrefix "" (String d p) = false.
Proof. reflexivity. Qed.

Lemma HasPrefix_spec (s p : string) :
  strings.HasPrefix s p = true <-> exists t, s = p ++ t.
Proof.
  revert s; induction p as [|d p IH]; intros s.
  - rewrite HasPrefix_nil. split; [exists s; reflexivity | reflexivity].
  - destruct s as [|c s].
    + rewrite HasPrefix_empty. split; [discriminate | intros [t H]; discriminate].
    + rewrite HasPrefix_cons, andb_true_iff, IH. split.
      * intros [Hc [t ->]]. apply Ascii.eqb_eq in Hc as ->. now exists t.
      * intros [t H]. simpl in H. injection H as -> ->.
        split; [apply Ascii.eqb_refl | now exists t].
Qed.

Lemma HasPrefix_append (p t : string) : strings.HasPrefix (p ++ t) p = true.
Proof. apply HasPrefix_spec. now exists t. Qed.

Lemma HasSuffix_spec (s x : string) :
  strings.HasSuffix s x = true <-> exists t, s = t ++ x.
Proof.
  unfold strings.HasSuffix. rewrite andb_true_iff, Nat.leb_le, String.eqb_eq.
  split.
  - intros [_ H]. exists (strings.take (length s - length x) s).
    transitivity (strings.take (length s - length x) s
                  ++ strings.drop (length s - length x) s);
      [symmetry; apply take_drop | now rewrite H].
  - intros [t ->]. rewrite length_append. split; [lia|].
    replace (length t + length x - length x)%nat with (length t) by lia.
    apply drop_append.
Qed.

Lemma Index_range (s x : string) : -1 <= strings.Index s x.
Proof.
  induction s as [|c s IH]; simpl.
  - destruct (strings.HasPrefix "" x); lia.
  - destruct (strings.HasPrefix (String c s) x); [lia|].
    destruct (strings.Index s x <? 0) eqn:E; [lia|]. apply Z.ltb_ge in E. lia.
Qed.

(** [strings.Index] finds an instance exactly when there is one. *)
Lemma Index_found (s x : string) :
  0 <= strings.Index s x <-> exists pre post, s = pre ++ x ++ post.
Proof.
  induction s as [|c s IH]; simpl.
  - destruct (strings.HasPrefix "" x) eqn:E.
    + apply HasPrefix_spec in E as [t E]. split; [|lia].
      intros _. now exists "", t.
    + split; [lia|]. intros [pre [post H]].
      destruct pre; simpl in H.
      * assert (strings.HasPrefix "" x = true)
          by (apply HasPrefix_spec; now exists post).
        congruence.
      * discriminate.
  - destruct (strings.HasPrefix (String c s) x) eqn:E.
    + apply HasPrefix_spec in E as [t E]. split; [|lia].
      intros _. now exists "", t.
    + destruct (strings.Index s x <? 0) eqn:L.
      * apply Z.ltb_lt in L. split; [lia|].
        intros [pre [post H]]. destruct pre as [|d pre]; simpl in H.
        -- assert (strings.HasPrefix (String c s) x = true)
             by (apply HasPrefix_spec; now exists post).
           congruence.
        -- injection H as _ H.
           assert (0 <= strings.Index s x) by (apply IH; now exists pre, post).
           lia.
      * apply Z.ltb_ge in L. split; [|lia].
        intros _. apply IH in L as [pre [post ->]].
        now exists (String c pre), post.
Qed.

Lemma Contains_spec (s x : string) :
  strings.Contains s x = true <-> exists pre post, s = pre ++ x ++ post.
Proof.
  unfold strings.Contains. rewrite <- Index_found, Z.geb_le. reflexivity.
Qed.



(** ** PathHasPrefix *)

(** C7, as the specification states it, fails on the empty prefix: every
    path has it, here ["a"], which neither equals [""] nor starts with the
    separator. *)
Lemma PathHasPrefix_empty_prefix_counterexample :
  ~ (PathHasPrefix (platform := linux) "a" "" = true
     <-> ("a" = "" \/ exists t, "a" = "" ++ separator (platform := linux) ++ t)).
Proof.
  intros [H _]. destruct (H eq_refl) as [E | [t E]]; discriminate.
Qed.

(** C7, amended: for a prefix that does not end with the path separator,
    [PathHasPrefix s prefix] holds exactly when the prefix is empty, or [s]
    equals the prefix, or [s] starts with the prefix followed by the
    separator. *)
Theorem PathHasPrefix_iff `{Platform} (s prefix : string) :
  strings.HasSuffix prefix separator = false ->
  PathHasPrefix s prefix = true
  <-> (prefix = "" \/ s = prefix \/ exists t, s = prefix ++ separator ++ t).
Proof.
  intros Hsuf. unfold PathHasPrefix. rewrite Hsuf. simpl.
  destruct (String.eqb_spec prefix "") as [-> | Hne]; simpl.
  - rewrite HasPrefix_nil, orb_true_r. tauto.
  - rewrite orb_true_iff, String.eqb_eq, HasPrefix_spec.
    setoid_rewrite append_assoc. tauto.
Qed.

Lemma PathHasPrefix_iff_witness :
  PathHasPrefix (platform := linux) "/go/src/pkg" "/go/src" = true
  <-> ("/go/src" = ""
       \/ "/go/src/pkg" = "/go/src"
       \/ exists t, "/go/src/pkg" = "/go/src" ++ separator (platform := linux) ++ t).
Proof. apply (PathHasPrefix_iff (H := linux)). reflexivity. Defined.

(** A prefix that already ends with the separator leaves [prefixSlash]
    empty, and then every path is accepted. *)
Lemma PathHasPrefix_trailing_separator `{Platform} (s prefix : string) :
  strings.HasSuffix prefix separator = true -> PathHasPrefix s prefix = true.
Proof.
  intros Hsuf. unfold PathHasPrefix. rewrite Hsuf, andb_false_r.
  now rewrite HasPrefix_nil, orb_true_r.
Qed.

(** ** IsVendorDir *)

Lemma segments_not_nil (s : string) : segments s <> [].
Proof.
  induction s as [|c s IH]; simpl; [discriminate|].
  destruct (c =? "/")%char; [discriminate|].
  destruct (segments s); [contradiction | discriminate].
Qed.

Lemma segments_slash (s : string) :
  segments (String "/" s) = "" :: segments s.
Proof. reflexivity. Qed.

Lemma removelast_cons {A : Type} (x : A) (l : list A) :
  l <> [] -> removelast (x :: l) = x :: removelast l.
Proof. destruct l; [contradiction | reflexivity]. Qed.

Lemma In_removelast_tail {A : Type} (x : A) (l : list A) :
  In x (removelast (tl l)) -> In x (removelast l).
Proof.
  destruct l as [|h t]; simpl; [tauto|].
  destruct t; [simpl; tauto | intros; now right].
Qed.

(** A first segment that is not the last one is followed by a slash. *)
Lemma segments_head (s hd : string) (tl : list string) :
  segments s = hd :: tl -> tl <> [] ->
  exists t, s = hd ++ "/" ++ t /\ segments t = tl.
Proof.
  revert hd tl; induction s as [|c s IH]; intros hd tl; simpl.
  - intros [= <- <-] Hne. contradiction.
  - destruct (Ascii.eqb_spec c "/") as [-> | Hc].
    + intros [= <- <-] _. now exists s.
    + destruct (segments s) as [|seg rest] eqn:E; [intros [= <- <-]; contradiction|].
      intros [= <- <-] Hne.
      destruct (IH _ _ eq_refl Hne) as [t [-> Ht]]. now exists t.
Qed.

(** A segment after the first that is not the last has a slash on both
    sides. *)
Lemma segments_inner (s x : string) :
  In x (removelast (tl (segments s))) ->
  exists pre post, s = pre ++ "/" ++ x ++ "/" ++ post.
Proof.
  induction s as [|c s IH]; simpl; [tauto|].
  destruct (Ascii.eqb_spec c "/") as [-> | Hc]; simpl.
  - destruct (segments s) as [|hd rest] eqn:E; [simpl; tauto|].
    destruct rest as [|r rest]; [simpl; tauto|].
    rewrite removelast_cons by discriminate. intros [<- | Hin].
    + destruct (segments_head s hd (r :: rest) E) as [t [-> _]]; [discriminate|].
      now exists "", t.
    + destruct (IH Hin) as [pre [post ->]]. now exists (String "/" pre), post.
  - destruct (segments s) as [|hd rest] eqn:E; [simpl; tauto|].
    simpl in *. intros Hin. destruct (IH Hin) as [pre [post ->]].
    now exists (String c pre), post.
Qed.

Lemma segments_vendor_prefix (t : string) :
  segments ("vendor/" ++ t) = "vendor" :: segments t.
Proof.
  simpl. destruct (segments t) eqn:E; [now apply segments_not_nil in E | reflexivity].
Qed.

Lemma segments_vendor_inner (pre post : string) :
  In "vendor" (removelast (tl (segments (pre ++ "/vendor/" ++ post)))).
Proof.
  induction pre as [|c pre IH].
  - change ("" ++ "/vendor/" ++ post) with (String "/" ("vendor/" ++ post)).
    rewrite segments_slash, segments_vendor_prefix. simpl tl.
    rewrite removelast_cons by apply segments_not_nil. now left.
  - change (String c pre ++ "/vendor/" ++ post)
      with (String c (pre ++ "/vendor/" ++ post)).
    set (u := pre ++ "/vendor/" ++ post) in *. clearbody u.
    simpl segments. destruct (c =? "/")%char.
    + simpl tl. now apply In_removelast_tail.
    + destruct (segments u); [destruct IH | exact IH].
Qed.

(** C8, as the specification states it, fails on a directory whose last
    segment is [vendor], the directory ["vendor"] itself for one:
    [IsVendorDir] answers false. *)
Lemma IsVendorDir_last_segment_counterexample :
  ~ (IsVendorDir "vendor" = true <-> In "vendor" (segments "vendor")).
Proof.
  intros [_ H]. assert (E : IsVendorDir "vendor" = true) by (apply H; now left).
  discriminate E.
Qed.

(** C8, amended: [IsVendorDir dir] holds exactly when [dir] has a path
    segment named [vendor] that is followed by a slash, that is, a segment
    [vendor] other than the last one. *)
Theorem IsVendorDir_iff (dir : string) :
  IsVendorDir dir = true <-> In "vendor" (removelast (segments dir)).
Proof.
  unfold IsVendorDir. rewrite orb_true_iff, HasPrefix_spec, Contains_spec. split.
  - intros [[t ->] | [pre [post ->]]].
    + rewrite segments_vendor_prefix, removelast_cons by apply segments_not_nil.
      now left.
    + apply In_removelast_tail, segments_vendor_inner.
  - destruct (segments dir) as [|hd rest] eqn:E; [simpl; tauto|].
    destruct rest as [|r rest]; [simpl; tauto|].
    rewrite removelast_cons by discriminate. intros [-> | Hin].
    + left. destruct (segments_head dir _ (r :: rest) E) as [t [-> _]];
        [discriminate | now exists t].
    + right. apply (segments_inner dir "vendor"). now rewrite E.
Qed.

(** ** pathToURI and uriToPath *)

Lemma Contains_byte_cons (d c : ascii) (s : string) :
  strings.Contains (String d s) (String c "")
  = (d =? c)%char || strings.Contains s (String c "").
Proof.
  unfold strings.Contains. simpl strings.Index.
  rewrite HasPrefix_cons, HasPrefix_nil, andb_true_r.
  destruct (d =? c)%char; [reflexivity|]. simpl.
  pose proof (Index_range s (String c "")).
  rewrite !Z.geb_leb.
  destruct (strings.Index s (String c "") <? 0) eqn:L;
    [apply Z.ltb_lt in L | apply Z.ltb_ge in L];
    repeat match goal with
           | |- context [0 <=? ?x] => destruct (Z.leb_spec 0 x)
           end; try reflexivity; lia.
Qed.

Lemma Cut_absent (s x : string) :
  strings.Contains s x = false -> strings.Cut s x = (s, "", false).
Proof. unfold strings.Contains, strings.Cut. now intros ->. Qed.

Lemma HasSuffix_absent (s x : string) :
  strings.Contains s x = false -> strings.HasSuffix s x = false.
Proof.
  intros Hc. destruct (strings.HasSuffix s x) eqn:E; [|reflexivity].
  apply HasSuffix_spec in E as [t ->].
  assert (strings.Contains (t ++ x) x = true).
  { apply Contains_spec. exists t, "". now rewrite append_nil_r. }
  congruence.
Qed.

(** A string without a percent sign is its own unescaped form. *)
Lemma unescape_plain (s : string) :
  strings.Contains s "%" = false -> url.unescape s url.encodePath = Some s.
Proof.
  induction s as [|c s IH]; [reflexivity|].
  rewrite Contains_byte_cons, orb_false_iff. intros [Hc Hs].
  simpl. rewrite Hc, (IH Hs). simpl. now destruct (c =? "+")%char.
Qed.

Lemma HasPrefix_slash (p : string) :
  strings.HasPrefix p "/" = true -> exists q, p = String "/" q.
Proof. intros H. apply HasPrefix_spec in H as [t ->]. now exists t. Qed.

(** What [url.parse] makes of [file://] followed by an absolute path. *)
Lemma parse_file_uri (authority : string -> option string) (p : string) :
  authority "" <> None ->
  strings.HasPrefix p "/" = true ->
  strings.Contains p "%" = false ->
  strings.Contains p "?" = false ->
  url.stringContainsCTLByte p = false ->
  exists host,
    url.parse authority ("file://" ++ p) false
    = Some (url.mkURL "file" "" host p "" "").
Proof.
  intros Hauth Hslash Hpct Hq Hctl.
  destruct (HasPrefix_slash p Hslash) as [q ->].
  destruct (authority "") as [host|] eqn:Ea; [|contradiction].
  exists host. unfold url.parse.
  assert (Hq' : strings.Contains ("//" ++ String "/" q) "?" = false).
  { cbn [append]. rewrite !Contains_byte_cons in *.
    destruct (strings.Contains q "?"); [discriminate Hq | reflexivity]. }
  change (url.stringContainsCTLByte ("file://" ++ String "/" q))
    with (url.stringContainsCTLByte (String "/" q)).
  rewrite Hctl.
  change (("file://" ++ String "/" q =? "")%string && false) with false.
  change ("file://" ++ String "/" q =? "*")%string with false.
  change (url.getScheme ("file://" ++ String "/" q))
    with (Some ("file", "//" ++ String "/" q)).
  cbv beta iota zeta delta [bind].
  rewrite (HasSuffix_absent _ _ Hq'), (Cut_absent _ _ Hq').
  cbn [andb]. cbv beta iota zeta.
  change (strings.ToLower "file") with "file".
  change (strings.HasPrefix ("//" ++ String "/" q) "/")
    with (strings.HasPrefix (String "/" (String "/" (String "/" q))) "/").
  change (strings.HasPrefix ("//" ++ String "/" q) "//")
    with (strings.HasPrefix (String "/" (String "/" (String "/" q))) "//").
  rewrite !HasPrefix_cons, !HasPrefix_nil.
  change (strings.drop 2 ("//" ++ String "/" q)) with (String "/" q).
  assert (Hi : strings.Index (String "/" q) "/" = 0).
  { cbn [strings.Index]. now rewrite HasPrefix_cons, HasPrefix_nil. }
  rewrite Hi. cbn -[url.unescape]. rewrite Ea. cbn -[url.unescape].
  now rewrite (unescape_plain _ Hpct).
Qed.

(** A path with an ASCII control byte, here a line feed inside a file name,
    does not make the round trip: [url.Parse] refuses the URI, the error is
    dropped, and [uriToPath] panics on the nil URL. *)
Lemma uriToPath_control_byte_panics :
  GOOS (Platform := linux) <> "windows"
  /\ strings.HasPrefix newline_path "/" = true
  /\ strings.Contains newline_path "%" = false
  /\ strings.Contains newline_path "?" = false
  /\ strings.Contains newline_path "#" = false
  /\ uriToPath (platform := linux) (pathToURI newline_path) = Panic
  /\ uriToPath (platform := linux) (pathToURI newline_path) <> Ret newline_path.
Proof.
  repeat split; try reflexivity; discriminate.
Qed.

(** C10: off Windows, for every absolute path that holds no character
    that must be escaped in a URL (no percent sign, question mark or hash,
    and no ASCII control byte, below 0x20 or 0x7f), converting the path to
    a URI and back returns the path. *)
Theorem uriToPath_pathToURI `{Platform} (p : string) :
  GOOS <> "windows" ->
  parseAuthority "" <> None ->
  strings.HasPrefix p "/" = true ->
  strings.Contains p "%" = false ->
  strings.Contains p "?" = false ->
  strings.Contains p "#" = false ->
  url.stringContainsCTLByte p = false ->
  uriToPath (pathToURI p) = Ret p.
Proof.
  intros Hos Hauth Hslash Hpct Hq Hhash Hctl.
  destruct (parse_file_uri parseAuthority p Hauth Hslash Hpct Hq Hctl)
    as [host Hparse].
  unfold uriToPath, pathToURI, url.Parse.
  assert (Hh : strings.Contains ("file://" ++ p) "#" = false).
  { cbn [append]. now rewrite !Contains_byte_cons, Hhash. }
  rewrite (Cut_absent _ _ Hh), Hparse. simpl.
  apply String.eqb_neq in Hos. now rewrite Hos.
Qed.

Lemma uriToPath_pathToURI_witness :
  uriToPath (platform := linux) (pathToURI "/home/user/go/src/main.go")
  = Ret "/home/user/go/src/main.go".
Proof.
  apply (uriToPath_pathToURI (H := linux)); try reflexivity; discriminate.
Defined.

(** ** The signature-help handler *)

Section SignatureFacts.

Context {toolchain : Toolchain}.

Import ast loader lsp.

Lemma appendNames_spec (names : list Ident) (t : string) (labels : list string) :
  appendNames labels names t
  = (labels ++ map (fun name => (Name name ++ " " ++ t)%string) names)%list.
Proof.
  revert labels; induction names as [|n names IH]; intros labels; simpl.
  - now rewrite app_nil_r.
  - now rewrite IH, <- app_assoc.
Qed.

Lemma appendFields_spec (pkg : PackageInfo) (fields : list Field)
      (labels : list string) :
  typesRecorded pkg {| List := fields |} = true ->
  appendFields labels fields pkg
  = Ret (labels ++ flat_map (fieldLabels pkg) fields)%list.
Proof.
  unfold typesRecorded; simpl.
  revert labels; induction fields as [|f fields IH]; intros labels; simpl.
  - now rewrite app_nil_r.
  - unfold fieldLabels at 1, typeString.
    destruct (TypeOf pkg (Field_Type f)) as [ty|]; simpl; [|discriminate].
    intros Hrec. now rewrite (IH _ Hrec), appendNames_spec, <- app_assoc.
Qed.

Lemma parametersAsString_spec (pkg : PackageInfo) (fields : FieldList) :
  typesRecorded pkg fields = true ->
  parametersAsString fields pkg = Ret (declaredLabels pkg fields).
Proof.
  destruct fields as [fields]. intros Hrec.
  unfold parametersAsString. now rewrite appendFields_spec.
Qed.

Lemma length_declaredLabels (pkg : PackageInfo) (fields : FieldList) :
  List.length (declaredLabels pkg fields)
  = List.length (flat_map Names (List fields)).
Proof.
  unfold declaredLabels. induction (List fields) as [|f fields' IH]; simpl.
  - reflexivity.
  - unfold fieldLabels at 1. now rewrite !length_app, length_map, IH.
Qed.

Lemma callExpr_fset (fset fset' : token.FileSet) (nodes : list Node) :
  callExpr fset nodes = callExpr fset' nodes.
Proof. induction nodes as [|n nodes IH]; simpl; [|rewrite IH]; reflexivity. Qed.

Lemma callExpr_none (fset : token.FileSet) (nodes : list Node) :
  (forall n, In n nodes -> asCallExpr n = None) -> callExpr fset nodes = None.
Proof.
  induction nodes as [|n nodes IH]; simpl; [reflexivity|]. intros Hno.
  rewrite (Hno n) by now left. apply IH. intros m Hm. apply Hno. now right.
Qed.

Lemma funcInfo_from_spec (prog : Program) (pkg : PackageInfo) (path : list Node) :
  funcInfo_from prog pkg path
  = match callExpr (Fset prog) path with
    | None => Ret ("", [], "")
    | Some c =>
        match funcDecl prog pkg c with
        | None => Ret ("", [], "")
        | Some d =>
            parameters <~ parametersAsString (Params (FuncDecl_Type d)) pkg ;;
            Ret (strings.Replace (nodeAsString (NFuncDecl (clone d)) (Fset prog))
                   "()" ("(" ++ strings.Join parameters ", " ++ ")") 1,
                 parameters, docText d)
        end
    end.
Proof.
  induction path as [|n path IH]; simpl; [reflexivity|].
  destruct (asCallExpr n) as [c|]; [|exact IH].
  destruct (funcDecl prog pkg c); reflexivity.
Qed.

Lemma ident_from_spec (bound : nat) (path : list Node) :
  ident_from bound path = headIdent (firstn bound path).
Proof.
  revert path; induction bound as [|b IH]; intros [|n path]; simpl;
    try reflexivity.
  destruct n as [[id| X Sel | c | a b'] | d | a b']; try reflexivity; apply IH.
Qed.

(** Filling the placeholder never turns a rendering into the empty string,
    nor the empty string into a rendering. *)
Lemma Replace_parens_empty (s x : string) :
  (strings.Replace s "()" ("(" ++ x ++ ")") 1 =? "")%string = (s =? "")%string.
Proof.
  unfold strings.Replace.
  destruct (("()" =? "(" ++ x ++ ")")%string || (1 =? 0)); [reflexivity|].
  change (if 1 <? 0 then S (length s) else Z.to_nat 1) with 1%nat.
  cbn [strings.replaceN].
  destruct (strings.Index s "()" <? 0) eqn:L; [reflexivity|].
  apply Z.ltb_ge in L.
  destruct s as [|c s]; [exfalso; now apply L|].
  destruct (strings.take (Z.to_nat (strings.Index (String c s) "()")) (String c s));
    reflexivity.
Qed.

Lemma activeParameter_min (n m : Z) :
  0 <= n ->
  (let a := if n >? 0 then n - 1 else n in if a >? m then m else a)
  = Z.min (Z.max (n - 1) 0) m.
Proof.
  intros Hn. cbv zeta.
  destruct (Z.gtb_spec n 0);
    match goal with |- context [?a >? m] => destruct (Z.gtb_spec a m) end; lia.
Qed.

(** What the handler answers once the request resolves to a declaration
    whose parameter types the package records. *)
Lemma handle_resolved (h : LangHandler) (params : TextDocumentPositionParams)
      (call : CallExpr) (d : FuncDecl) :
  let tc := typecheck h (URI (TextDocument params)) (Position_ params) in
  resolvedDecl tc = Some (call, d) ->
  typesRecorded (tc_pkg tc) (Params (FuncDecl_Type d)) = true ->
  let labels := declaredLabels (tc_pkg tc) (Params (FuncDecl_Type d)) in
  let printed := nodeAsString (NFuncDecl (clone d)) (Fset (tc_program tc)) in
  handleTextDocumentSignatureHelp h params
  = if (printed =? "")%string then Ret (None, None)
    else Ret (Some {| Signatures :=
                        [ {| Label := strings.Replace printed "()"
                                        ("(" ++ strings.Join labels ", " ++ ")") 1;
                             Documentation := docText d;
                             Parameters :=
                               map (fun p => {| ParameterInformation_Label := p |})
                                   labels |} ];
                      ActiveSignature := 0;
                      ActiveParameter :=
                        Z.min (Z.max (Z.of_nat (List.length labels) - 1) 0)
                              (Z.of_nat (List.length (Args call))) |},
              None).
Proof.
  intros tc Hres Hrec labels printed.
  unfold handleTextDocumentSignatureHelp. fold tc.
  unfold resolvedDecl, bind in Hres.
  assert (Hgo : exists c,
             callExpr (tc_fset tc) (tc_nodes tc) = Some call
             /\ callExpr (Fset (tc_program tc))
                  (PathEnclosingInterval (tc_program tc) (Pos (Fun call))
                                         (Pos (Fun call))) = Some c
             /\ funcDecl (tc_program tc) (tc_pkg tc) c = Some d
             /\ (forall msg, tc_err tc <> Some (otherError msg))).
  { destruct (tc_err tc) as [[msg|msg]|]; try discriminate;
      destruct (callExpr (tc_fset tc) (tc_nodes tc)) as [call'|] eqn:Ecall;
      try discriminate;
      destruct (callExpr _ (PathEnclosingInterval _ (Pos (Fun call')) _))
        as [c|] eqn:Ec; try discriminate;
      destruct (funcDecl _ _ c) as [d'|] eqn:Ed; try discriminate;
      injection Hres as -> ->; exists c; repeat split; try reflexivity;
      try assumption; intros; discriminate. }
  destruct Hgo as [c [Hcall [Hc [Hd Herr]]]].
  destruct (tc_err tc) as [[msg|msg]|]; [ | now destruct (Herr msg) | ];
    (rewrite Hcall; unfold funcInfo;
     rewrite funcInfo_from_spec, Hc, Hd, (parametersAsString_spec _ _ Hrec);
     fold labels; cbn [exec_bind]; fold printed;
     rewrite Replace_parens_empty;
     destruct (printed =? "")%string; [reflexivity|];
     cbv zeta; cbn [Parameters]; rewrite length_map;
     do 3 f_equal; f_equal; apply activeParameter_min; lia).
Qed.

End SignatureFacts.



Section SignatureClaims.

Context {toolchain : Toolchain}.

Import ast loader lsp.

(** C1, amended: a request that resolves to a declaration with no
    parameters is answered with one signature, whose label is the rendered
    declaration, whose parameter list is empty and whose active parameter
    is 0; the answer is empty only when the rendering is the empty string
    (the printer reported an error). *)
Theorem zero_parameters_signature (h : LangHandler)
        (params : TextDocumentPositionParams) (call : CallExpr) (d : FuncDecl) :
  let tc := typecheck h (URI (TextDocument params)) (Position_ params) in
  resolvedDecl tc = Some (call, d) ->
  List (Params (FuncDecl_Type d)) = [] ->
  let printed := nodeAsString (NFuncDecl (clone d)) (Fset (tc_program tc)) in
  handleTextDocumentSignatureHelp h params
  = if (printed =? "")%string then Ret (None, None)
    else Ret (Some {| Signatures := [ {| Label := printed;
                                         Documentation := docText d;
                                         Parameters := [] |} ];
                      ActiveSignature := 0;
                      ActiveParameter := 0 |}, None).
Proof.
  intros tc Hres Hzero printed.
  assert (Hrec : typesRecorded (tc_pkg tc) (Params (FuncDecl_Type d)) = true)
    by (unfold typesRecorded; now rewrite Hzero).
  rewrite (handle_resolved h params call d Hres Hrec).
  fold tc printed. unfold declaredLabels. rewrite Hzero. simpl.
  destruct (printed =? "")%string; [reflexivity|].
  do 3 f_equal. now destruct (List.length (Args call)).
Qed.

(** X22: for the declaration a request resolves to, when the package of the
    call records the types of its parameters and its rendering is not
    empty, the parameter labels of the answer are
    the labels of the declared parameter groups in declaration order, one
    label [name type] per declared name, a group of several names giving
    one label per name with the type of the group; there are as many labels
    as declared names. *)
Theorem parameter_labels (h : LangHandler)
        (params : TextDocumentPositionParams) (call : CallExpr) (d : FuncDecl) :
  let tc := typecheck h (URI (TextDocument params)) (Position_ params) in
  let fields := List (Params (FuncDecl_Type d)) in
  resolvedDecl tc = Some (call, d) ->
  typesRecorded (tc_pkg tc) (Params (FuncDecl_Type d)) = true ->
  nodeAsString (NFuncDecl (clone d)) (Fset (tc_program tc)) <> "" ->
  exists help info,
    handleTextDocumentSignatureHelp h params = Ret (Some help, None)
    /\ Signatures help = [info]
    /\ map ParameterInformation_Label (Parameters info)
       = flat_map (fun field =>
                     map (fun name =>
                            Name name ++ " " ++ typeString (tc_pkg tc) (Field_Type field))
                         (Names field))
                  fields
    /\ List.length (Parameters info) = List.length (flat_map Names fields).
Proof.
  intros tc fields Hres Hrec Hprinted.
  rewrite (handle_resolved h params call d Hres Hrec). fold tc.
  apply String.eqb_neq in Hprinted. rewrite Hprinted.
  do 2 eexists; split; [reflexivity|]. split; [reflexivity|].
  cbn [Parameters]. rewrite map_map, map_id, length_map, length_declaredLabels.
  split; reflexivity.
Qed.

(** C5: a request whose enclosing path was computed (type checking did not
    fail for another reason than the position) and holds no call expression
    is answered with the empty result and no error. *)
Theorem no_call_empty_result (h : LangHandler)
        (params : TextDocumentPositionParams) :
  let tc := typecheck h (URI (TextDocument params)) (Position_ params) in
  (forall msg, tc_err tc <> Some (otherError msg)) ->
  (forall node, In node (tc_nodes tc) -> asCallExpr node = None) ->
  handleTextDocumentSignatureHelp h params = Ret (None, None).
Proof.
  intros tc Herr Hno. unfold handleTextDocumentSignatureHelp. fold tc.
  rewrite (callExpr_none _ _ Hno).
  destruct (tc_err tc) as [[msg|msg]|]; try reflexivity.
  now destruct (Herr msg).
Qed.

(** C6: the identifier of a callee is searched on the first four levels of
    the callee's enclosing path only: it is the identifier itself when the
    path starts at a bare identifier, the selected name when it starts at a
    selector expression, and when none of the four levels is either, no
    declaration is found and the handler's answer is empty. *)
Theorem callee_ident_bounded (h : LangHandler)
        (params : TextDocumentPositionParams) (call c : CallExpr) :
  let tc := typecheck h (URI (TextDocument params)) (Position_ params) in
  let prog := tc_program tc in
  let pkg := tc_pkg tc in
  let path := PathEnclosingInterval prog (Pos (Fun c)) (End (Fun c)) in
  (forall msg, tc_err tc <> Some (otherError msg)) ->
  callExpr (tc_fset tc) (tc_nodes tc) = Some call ->
  callExpr (Fset prog)
    (PathEnclosingInterval prog (Pos (Fun call)) (Pos (Fun call))) = Some c ->
  ident prog pkg (Fun c) = headIdent (firstn 4 path)
  /\ (forall id rest, path = NExpr (EIdent id) :: rest ->
                      ident prog pkg (Fun c) = Some id)
  /\ (forall X Sel rest, path = NExpr (ESelector X Sel) :: rest ->
                         ident prog pkg (Fun c) = Some Sel)
  /\ (headIdent (firstn 4 path) = None ->
      funcDecl prog pkg c = None
      /\ handleTextDocumentSignatureHelp h params = Ret (None, None)).
Proof.
  intros tc prog pkg path Herr Hcall Hc.
  assert (Hid : ident prog pkg (Fun c) = headIdent (firstn 4 path))
    by apply ident_from_spec.
  split; [exact Hid|]. split; [|split].
  - intros id rest E. rewrite Hid, E. reflexivity.
  - intros X Sel rest E. rewrite Hid, E. reflexivity.
  - intros Hnone.
    assert (Hd : funcDecl prog pkg c = None)
      by (unfold funcDecl; now rewrite Hid, Hnone).
    split; [exact Hd|].
    unfold handleTextDocumentSignatureHelp. fold tc.
    rewrite Hcall. unfold funcInfo. fold prog pkg.
    rewrite funcInfo_from_spec, Hc, Hd. cbn [exec_bind].
    destruct (tc_err tc) as [[msg|msg]|]; try reflexivity.
    now destruct (Herr msg).
Qed.

End SignatureClaims.

(** ** The handler on the small program *)

Section Demo.

Import ast loader lsp.

#[local] Existing Instance demo.tools.

(** C1, as the specification states it, fails: the call of [Zero], declared
    without parameters, is answered with the signature [func Zero() int],
    not with the empty result. *)
Lemma zero_parameters_counterexample :
  resolvedDecl (demo.snapshot 30) = Some (demo.ZeroCall, demo.ZeroDecl)
  /\ List (Params (FuncDecl_Type demo.ZeroDecl)) = []
  /\ handleTextDocumentSignatureHelp demo.handler (demo.at_column 30)
     = Ret (Some {| Signatures := [ {| Label := "func Zero() int";
                                       Documentation := "";
                                       Parameters := [] |} ];
                    ActiveSignature := 0;
                    ActiveParameter := 0 |}, None)
  /\ handleTextDocumentSignatureHelp demo.handler (demo.at_column 30) <> Ret (None, None).
Proof. repeat split; try reflexivity. discriminate. Qed.

Lemma zero_parameters_signature_witness :
  resolvedDecl (demo.snapshot 30) = Some (demo.ZeroCall, demo.ZeroDecl)
  /\ List (Params (FuncDecl_Type demo.ZeroDecl)) = []
  /\ handleTextDocumentSignatureHelp demo.handler (demo.at_column 30)
     = Ret (Some {| Signatures := [ {| Label := "func Zero() int";
                                       Documentation := "";
                                       Parameters := [] |} ];
                    ActiveSignature := 0;
                    ActiveParameter := 0 |}, None).
Proof.
  split; [reflexivity|]. split; [reflexivity|].
  exact (zero_parameters_signature (toolchain := demo.tools) demo.handler
           (demo.at_column 30) demo.ZeroCall demo.ZeroDecl eq_refl eq_refl).
Defined.

Lemma parameter_labels_witness :
  exists help info,
    handleTextDocumentSignatureHelp demo.handler (demo.at_column 20) = Ret (Some help, None)
    /\ Signatures help = [info]
    /\ map ParameterInformation_Label (Parameters info) = ["a int"; "b int"]
    /\ List.length (Parameters info) = 2%nat.
Proof.
  apply (parameter_labels (toolchain := demo.tools) demo.handler
           (demo.at_column 20) demo.AddCall demo.AddDecl);
    [reflexivity | reflexivity | now vm_compute].
Defined.

Lemma no_call_empty_result_witness :
  handleTextDocumentSignatureHelp demo.handler (demo.at_column 60) = Ret (None, None).
Proof.
  apply (no_call_empty_result (toolchain := demo.tools) demo.handler
           (demo.at_column 60)).
  - intros msg. discriminate.
  - intros node [<- | [<- | [<- | []]]]; reflexivity.
Defined.

Lemma callee_ident_bounded_witness :
  funcDecl demo.prog demo.pkg demo.LitCall = None
  /\ handleTextDocumentSignatureHelp demo.handler (demo.at_column 50) = Ret (None, None).
Proof.
  apply (callee_ident_bounded (toolchain := demo.tools) demo.handler
           (demo.at_column 50) demo.LitCall demo.LitCall);
    [intros msg; discriminate | reflexivity | reflexivity | reflexivity].
Defined.

End Demo.

(** * Further properties of the path and URI helpers *)

Lemma append_not_shorter (a : string) (c : ascii) (t : string) :
  a ++ String c t <> a.
Proof.
  intros E. apply (f_equal length) in E. rewrite length_append in E.
  simpl in E. lia.
Qed.

Lemma append_same_nil (a t : string) : a ++ t = a -> t = "".
Proof.
  destruct t as [|c t]; [reflexivity|]. intros E.
  now destruct (append_not_shorter a c t).
Qed.

Lemma append_inj_l (a t u : string) : a ++ t = a ++ u -> t = u.
Proof. induction a as [|c a IH]; simpl; [tauto | intros [= E]; auto]. Qed.

Lemma TrimPrefix_append (p t : string) : strings.TrimPrefix (p ++ t) p = t.
Proof.
  unfold strings.TrimPrefix. now rewrite HasPrefix_append, drop_append.
Qed.

Lemma TrimPrefix_absent (s p : string) :
  strings.HasPrefix s p = false -> strings.TrimPrefix s p = s.
Proof. unfold strings.TrimPrefix. now intros ->. Qed.

(** [PathHasPrefix] for a prefix that does not end with the separator. *)
Lemma PathHasPrefix_cases `{Platform} (s prefix : string) :
  strings.HasSuffix prefix separator = false ->
  PathHasPrefix s prefix = true
  <-> (prefix = "" \/ s = prefix \/ exists t, s = prefix ++ separator ++ t).
Proof.
  intros Hsuf. unfold PathHasPrefix. rewrite Hsuf. simpl.
  destruct (String.eqb_spec prefix "") as [-> | Hne]; simpl.
  - rewrite HasPrefix_nil, orb_true_r. tauto.
  - rewrite orb_true_iff, String.eqb_eq, HasPrefix_spec.
    setoid_rewrite append_assoc. tauto.
Qed.

(** X1: [PathTrimPrefix] undoes the joining of a prefix and a rest, whether
    or not the prefix already ends with the separator. *)
Theorem PathTrimPrefix_joined `{Platform} (prefix rest : string) :
  PathTrimPrefix
    (if strings.HasSuffix prefix separator then prefix ++ rest
     else prefix ++ separator ++ rest)
    prefix
  = rest.
Proof.
  unfold PathTrimPrefix.
  destruct (strings.HasSuffix prefix separator) eqn:Hsuf; cbn [negb].
  - destruct (String.eqb_spec (prefix ++ rest) prefix) as [E | _].
    + symmetry. now apply (append_same_nil prefix).
    + apply TrimPrefix_append.
  - destruct (String.eqb_spec (prefix ++ separator ++ rest) prefix) as [E | _].
    + now destruct (append_not_shorter prefix PathSeparator rest).
    + rewrite <- append_assoc. apply TrimPrefix_append.
Qed.

(** X2: for a non-empty prefix that does not end with the separator, a
    path that has the prefix and is not the prefix itself is the prefix,
    the separator and what [PathTrimPrefix] leaves; a path that does not
    have the prefix is left as it is by [PathTrimPrefix]. *)
Theorem PathTrimPrefix_PathHasPrefix `{Platform} (s prefix : string) :
  strings.HasSuffix prefix separator = false ->
  prefix <> "" ->
  (PathHasPrefix s prefix = true -> s <> prefix ->
   s = prefix ++ separator ++ PathTrimPrefix s prefix)
  /\ (PathHasPrefix s prefix = false -> PathTrimPrefix s prefix = s).
Proof.
  intros Hsuf Hne. split.
  - intros Hhas Hs. apply (PathHasPrefix_cases s prefix Hsuf) in Hhas.
    destruct Hhas as [E | [E | [t ->]]]; [contradiction | contradiction |].
    unfold PathTrimPrefix. rewrite Hsuf. cbn [negb].
    apply String.eqb_neq in Hs. rewrite Hs.
    rewrite <- (append_assoc prefix separator t) at 2.
    now rewrite TrimPrefix_append.
  - unfold PathHasPrefix, PathTrimPrefix. rewrite Hsuf.
    apply String.eqb_neq in Hne. rewrite Hne. cbn [negb andb].
    intros Hno. apply orb_false_iff in Hno as [-> Hpre].
    now apply TrimPrefix_absent.
Qed.

(** X3: [pathEqual a b] holds exactly when [a] is empty, or [a] is [b], or
    [a] is [b] followed by one separator that [b] does not already end
    with.  So the empty path is equal to every path, and the relation is
    not symmetric. *)
Theorem pathEqual_iff `{Platform} (a b : string) :
  pathEqual a b = true
  <-> (a = "" \/ a = b
       \/ (strings.HasSuffix b separator = false /\ a = b ++ separator)).
Proof.
  unfold pathEqual, PathTrimPrefix.
  destruct (String.eqb_spec a b) as [-> | Hab]; [simpl; tauto|].
  set (b' := if negb (strings.HasSuffix b separator) then b ++ separator else b).
  assert (Hb' : b' <> "").
  { subst b'. destruct (strings.HasSuffix b separator) eqn:Hsuf; cbn [negb].
    - intros ->. discriminate Hsuf.
    - destruct b; discriminate. }
  rewrite String.eqb_eq. unfold strings.TrimPrefix.
  destruct (strings.HasPrefix a b') eqn:Hpre.
  - apply HasPrefix_spec in Hpre as [t ->]. rewrite drop_append. split.
    + intros ->. rewrite append_nil_r in *. subst b'.
      destruct (strings.HasSuffix b separator); cbn [negb] in *;
        [contradiction | auto].
    + intros [E | [E | [Hsuf E]]].
      * destruct b'; [contradiction | discriminate].
      * contradiction.
      * subst b'. rewrite Hsuf in *. cbn [negb] in *.
        now apply append_same_nil in E.
  - split; [auto|]. intros [E | [E | [Hsuf E]]]; [exact E | contradiction |].
    subst b'. rewrite Hsuf in Hpre. cbn [negb] in Hpre.
    rewrite E in Hpre.
    rewrite <- (append_nil_r (b ++ separator)), HasPrefix_append in Hpre at 1.
    discriminate.
Qed.

(** X4: with prefixes that do not end with the separator, having a prefix
    is transitive. *)
Theorem PathHasPrefix_trans `{Platform} (a b c : string) :
  strings.HasSuffix b separator = false ->
  strings.HasSuffix c separator = false ->
  PathHasPrefix a b = true ->
  PathHasPrefix b c = true ->
  PathHasPrefix a c = true.
Proof.
  intros Hb Hc Hab Hbc.
  apply (PathHasPrefix_cases a b Hb) in Hab.
  apply (PathHasPrefix_cases b c Hc) in Hbc.
  apply (PathHasPrefix_cases a c Hc).
  destruct Hbc as [-> | [-> | [u ->]]]; [now left | exact Hab |].
  destruct Hab as [E | [-> | [t ->]]].
  - destruct c; discriminate.
  - right; right. now exists u.
  - right; right. exists (u ++ separator ++ t). now rewrite !append_assoc.
Qed.

(** X5: the URI of a path is recognised by [isURI] exactly when the path
    starts with a slash. *)
Theorem isURI_pathToURI (path : string) :
  isURI (pathToURI path) = strings.HasPrefix path "/".
Proof.
  unfold isURI, pathToURI. cbn [append].
  rewrite !HasPrefix_cons. cbn [Ascii.eqb Bool.eqb andb].
  destruct path as [|c path]; [reflexivity|].
  now rewrite !HasPrefix_cons, !HasPrefix_nil.
Qed.

Lemma segments_append (a b : string) :
  segments (a ++ String "/" b) = (segments a ++ segments b)%list.
Proof.
  induction a as [|c a IH]; [reflexivity|].
  cbn [append segments]. rewrite IH.
  destruct (c =? "/")%char; [reflexivity|].
  destruct (segments a) eqn:E; [now apply segments_not_nil in E | reflexivity].
Qed.

Lemma segments_single (x : string) :
  strings.Contains x "/" = false -> segments x = [x].
Proof.
  induction x as [|c x IH]; [reflexivity|].
  rewrite Contains_byte_cons, orb_false_iff. intros [Hc Hx].
  cbn [segments]. now rewrite Hc, (IH Hx).
Qed.

Lemma vendor_segments (dir : string) :
  strings.HasPrefix dir "vendor/" || strings.Contains dir "/vendor/" = true
  <-> In "vendor" (removelast (segments dir)).
Proof.
  rewrite orb_true_iff, HasPrefix_spec, Contains_spec. split.
  - intros [[t ->] | [pre [post ->]]].
    + rewrite segments_vendor_prefix, removelast_cons by apply segments_not_nil.
      now left.
    + apply In_removelast_tail, segments_vendor_inner.
  - destruct (segments dir) as [|hd rest] eqn:E; [simpl; tauto|].
    destruct rest as [|r rest]; [simpl; tauto|].
    rewrite removelast_cons by discriminate. intros [-> | Hin].
    + left. destruct (segments_head dir _ (r :: rest) E) as [t [-> _]];
        [discriminate | now exists t].
    + right. apply (segments_inner dir "vendor"). now rewrite E.
Qed.

(** X6: a directory one level below [dir] is a vendor directory exactly
    when [dir] has a path segment named [vendor]. *)
Theorem IsVendorDir_child (dir child : string) :
  strings.Contains child "/" = false ->
  IsVendorDir (dir ++ "/" ++ child) = true <-> In "vendor" (segments dir).
Proof.
  intros Hchild. unfold IsVendorDir. rewrite vendor_segments.
  change (dir ++ "/" ++ child) with (dir ++ String "/" child).
  rewrite segments_append, (segments_single child Hchild).
  now rewrite removelast_last.
Qed.

Lemma Contains_byte_append (a b : string) (c : ascii) :
  strings.Contains (a ++ b) (String c "")
  = strings.Contains a (String c "") || strings.Contains b (String c "").
Proof.
  induction a as [|d a IH]; [reflexivity|].
  cbn [append]. now rewrite !Contains_byte_cons, IH, orb_assoc.
Qed.

Lemma stringContainsCTLByte_append (a b : string) :
  url.stringContainsCTLByte (a ++ b)
  = url.stringContainsCTLByte a || url.stringContainsCTLByte b.
Proof.
  induction a as [|d a IH]; [reflexivity|].
  cbn [append url.stringContainsCTLByte]. now rewrite IH, orb_assoc.
Qed.

Lemma drop_append_more (a b : string) (n : nat) :
  strings.drop (length a + n) (a ++ b) = strings.drop n b.
Proof. induction a as [|c a IH]; [reflexivity | exact IH]. Qed.

(** The first instance of a byte is where the text before it ends. *)
Lemma Index_byte_first (pre post : string) (c : ascii) :
  strings.Contains pre (String c "") = false ->
  strings.Index (pre ++ String c post) (String c "") = Z.of_nat (length pre).
Proof.
  induction pre as [|d pre IH].
  - intros _. cbn [append strings.Index].
    now rewrite HasPrefix_cons, HasPrefix_nil, Ascii.eqb_refl.
  - rewrite Contains_byte_cons, orb_false_iff. intros [Hd Hpre].
    cbn [append strings.Index].
    rewrite HasPrefix_cons, Hd, (IH Hpre). cbn [andb].
    destruct (Z.ltb_spec (Z.of_nat (length pre)) 0); [lia|].
    cbn [length]. lia.
Qed.

Lemma Cut_first (pre post : string) (c : ascii) :
  strings.Contains pre (String c "") = false ->
  strings.Cut (pre ++ String c post) (String c "") = (pre, post, true).
Proof.
  intros Hpre. unfold strings.Cut. rewrite (Index_byte_first _ _ _ Hpre).
  destruct (Z.geb_spec (Z.of_nat (length pre)) 0); [|lia].
  rewrite Nat2Z.id, take_append.
  now rewrite (drop_append_more pre (String c post) (length (String c ""))).
Qed.

Lemma countN_nonneg (fuel : nat) (s x : string) : 0 <= strings.countN fuel s x.
Proof.
  revert s; induction fuel as [|f IH]; intros s; cbn [strings.countN]; [lia|].
  destruct (strings.Index s x <? 0); [lia|].
  specialize (IH (strings.drop (Z.to_nat (strings.Index s x) + length x) s)). lia.
Qed.

(** A text that ends with a byte and has a non-empty tail ends with the
    byte because the tail does. *)
Lemma suffix_of_tail (a q t : string) (c : ascii) :
  a ++ q = t ++ String c "" -> q <> "" -> exists q', q = q' ++ String c "".
Proof.
  revert t; induction a as [|x a IH]; intros t; cbn [append].
  - intros -> _. now exists t.
  - destruct t as [|y t]; cbn [append].
    + intros [= _ E] Hq. destruct a; [now destruct q | discriminate].
    + intros [= _ E] Hq. now apply (IH t).
Qed.

(** How [url.parse] splits the query off [//path] and [//path?query]. *)
Lemma query_split (p : string) (oq : option string) :
  strings.Contains p "?" = false ->
  let rest := "//" ++ p ++ match oq with Some q => "?" ++ q | None => "" end in
  (if strings.HasSuffix rest "?" && (strings.Count rest "?" =? 1)
   then (strings.take (length rest - 1) rest, "")
   else let '(before, after, _) := strings.Cut rest "?" in (before, after))
  = ("//" ++ p, match oq with Some q => q | None => "" end).
Proof.
  intros Hp rest.
  assert (Hpre : strings.Contains ("//" ++ p) "?" = false).
  { cbn [append]. now rewrite !Contains_byte_cons, Hp. }
  destruct oq as [q|]; subst rest.
  - rewrite <- (append_assoc "//" p ("?" ++ q)).
    change ("?" ++ q) with (String "?" q).
    set (pre := "//" ++ p) in *.
    destruct (strings.HasSuffix (pre ++ String "?" q) "?"
              && (strings.Count (pre ++ String "?" q) "?" =? 1)) eqn:E.
    + apply andb_true_iff in E as [Hsuf Hcount].
      apply Z.eqb_eq in Hcount. unfold strings.Count in Hcount.
      cbn [strings.countN] in Hcount.
      rewrite (Index_byte_first _ _ _ Hpre) in Hcount.
      destruct (Z.ltb_spec (Z.of_nat (length pre)) 0); [lia|].
      rewrite Nat2Z.id, (drop_append_more pre (String "?" q) (length "?")) in Hcount.
      change (strings.drop (length "?") (String "?" q)) with q in Hcount.
      assert (Hlen : exists k, length (pre ++ String "?" q) = S k).
      { exists (length pre + length q)%nat. rewrite length_append. simpl. lia. }
      destruct Hlen as [k Hk]. rewrite Hk in Hcount.
      cbn [strings.countN] in Hcount.
      assert (Hq : strings.Contains q "?" = false).
      { unfold strings.Contains.
        destruct (strings.Index q "?" <? 0) eqn:L.
        - apply Z.ltb_lt in L. rewrite Z.geb_leb. apply Z.leb_gt. lia.
        - pose proof (countN_nonneg k
                        (strings.drop (Z.to_nat (strings.Index q "?") + length "?") q)
                        "?"). lia. }
      assert (Hnil : q = "").
      { destruct (String.eqb_spec q "") as [E | Hne]; [exact E|].
        apply HasSuffix_spec in Hsuf as [t Ht].
        change (pre ++ String "?" q) with (pre ++ "?" ++ q) in Ht.
        rewrite <- append_assoc in Ht.
        destruct (suffix_of_tail _ _ _ _ Ht Hne) as [q' ->].
        rewrite Contains_byte_append in Hq.
        apply orb_false_iff in Hq as [_ Hq]. discriminate Hq. }
      subst q. rewrite length_append. cbn [length].
      replace (length pre + 1 - 1)%nat with (length pre) by lia.
      now rewrite take_append.
    + now rewrite (Cut_first _ _ _ Hpre).
  - rewrite append_nil_r.
    now rewrite (HasSuffix_absent _ _ Hpre), (Cut_absent _ _ Hpre).
Qed.

(** What [url.parse] makes of [file://] followed by an absolute path and,
    possibly, a query. *)
Lemma parse_file_uri_query (authority : string -> option string)
      (host p : string) (oq : option string) :
  authority "" = Some host ->
  strings.HasPrefix p "/" = true ->
  strings.Contains p "?" = false ->
  let tail := match oq with Some q => "?" ++ q | None => "" end in
  url.stringContainsCTLByte ("file://" ++ p ++ tail) = false ->
  url.parse authority ("file://" ++ p ++ tail) false
  = match url.unescape p url.encodePath with
    | Some x => Some (url.mkURL "file" "" host x
                        match oq with Some q => q | None => "" end "")
    | None => None
    end.
Proof.
  intros Ea Hslash Hq tail Hctl.
  pose proof (query_split p oq Hq) as Hsplit. cbv zeta in Hsplit. fold tail in Hsplit.
  destruct (HasPrefix_slash p Hslash) as [p' ->].
  unfold url.parse. rewrite Hctl.
  change (("file://" ++ String "/" p' ++ tail =? "")%string && false) with false.
  change ("file://" ++ String "/" p' ++ tail =? "*")%string with false.
  change (url.getScheme ("file://" ++ String "/" p' ++ tail))
    with (Some ("file", "//" ++ String "/" p' ++ tail)).
  cbv beta iota zeta delta [bind].
  rewrite Hsplit. cbv beta iota zeta.
  change (strings.ToLower "file") with "file".
  change (strings.HasPrefix ("//" ++ String "/" p') "/")
    with (strings.HasPrefix (String "/" (String "/" (String "/" p'))) "/").
  change (strings.HasPrefix ("//" ++ String "/" p') "//")
    with (strings.HasPrefix (String "/" (String "/" (String "/" p'))) "//").
  rewrite !HasPrefix_cons, !HasPrefix_nil.
  change (strings.drop 2 ("//" ++ String "/" p')) with (String "/" p').
  assert (Hi : strings.Index (String "/" p') "/" = 0).
  { cbn [strings.Index]. now rewrite HasPrefix_cons, HasPrefix_nil. }
  rewrite Hi. cbn -[url.unescape]. rewrite Ea. cbn -[url.unescape].
  destruct (url.unescape (String "/" p') url.encodePath); reflexivity.
Qed.

Lemma file_uri_no_hash (p : string) :
  strings.Contains p "#" = false -> strings.Contains ("file://" ++ p) "#" = false.
Proof. intros Hp. cbn [append]. now rewrite !Contains_byte_cons, Hp. Qed.

Lemma file_uri_no_control (p : string) :
  url.stringContainsCTLByte ("file://" ++ p) = url.stringContainsCTLByte p.
Proof. reflexivity. Qed.

(** X7: off Windows, for an absolute path without question mark, hash and
    control byte, the round trip through a URI yields the path with its
    percent escapes decoded, and panics when a percent sign is not followed
    by two hexadecimal digits. *)
Theorem uriToPath_unescapes `{Platform} (p : string) :
  GOOS <> "windows" ->
  parseAuthority "" <> None ->
  strings.HasPrefix p "/" = true ->
  strings.Contains p "?" = false ->
  strings.Contains p "#" = false ->
  url.stringContainsCTLByte p = false ->
  uriToPath (pathToURI p)
  = match url.unescape p url.encodePath with
    | Some decoded => Ret decoded
    | None => Panic
    end.
Proof.
  intros Hos Hauth Hslash Hq Hhash Hctl.
  destruct (parseAuthority "") as [host|] eqn:Ea; [|contradiction].
  unfold uriToPath, pathToURI, url.Parse.
  rewrite (Cut_absent _ _ (file_uri_no_hash p Hhash)).
  pose proof (parse_file_uri_query parseAuthority host p None Ea Hslash Hq) as Hparse.
  cbv zeta in Hparse. rewrite append_nil_r in Hparse.
  rewrite Hparse by (now rewrite file_uri_no_control).
  apply String.eqb_neq in Hos.
  destruct (url.unescape p url.encodePath); simpl; [now rewrite Hos | reflexivity].
Qed.

(** X8: on Windows, for an absolute path without percent sign, question
    mark, hash and control byte, the round trip through a URI yields
    [filepath.Clean] of the path without its leading slash. *)
Theorem uriToPath_windows `{Platform} (p : string) :
  GOOS = "windows" ->
  parseAuthority "" <> None ->
  strings.HasPrefix p "/" = true ->
  strings.Contains p "%" = false ->
  strings.Contains p "?" = false ->
  strings.Contains p "#" = false ->
  url.stringContainsCTLByte p = false ->
  uriToPath (pathToURI p) = Ret (filepath_Clean (strings.drop 1 p)).
Proof.
  intros Hos Hauth Hslash Hpct Hq Hhash Hctl.
  destruct (parseAuthority "") as [host|] eqn:Ea; [|contradiction].
  unfold uriToPath, pathToURI, url.Parse.
  rewrite (Cut_absent _ _ (file_uri_no_hash p Hhash)).
  pose proof (parse_file_uri_query parseAuthority host p None Ea Hslash Hq) as Hparse.
  cbv zeta in Hparse. rewrite append_nil_r in Hparse.
  rewrite Hparse by (now rewrite file_uri_no_control).
  rewrite (unescape_plain p Hpct). simpl. rewrite Hos. simpl.
  destruct (HasPrefix_slash p Hslash) as [p' ->]. reflexivity.
Qed.

(** X9: a hash cuts the path short: off Windows, the round trip of
    [p ++ "#" ++ f], for an absolute [p] without question mark, hash and
    control byte, yields the decoded [p] alone, and panics when [p] or [f]
    holds a malformed percent escape. *)
Theorem uriToPath_fragment `{Platform} (p f : string) :
  GOOS <> "windows" ->
  parseAuthority "" <> None ->
  strings.HasPrefix p "/" = true ->
  strings.Contains p "?" = false ->
  strings.Contains p "#" = false ->
  url.stringContainsCTLByte p = false ->
  uriToPath (pathToURI (p ++ "#" ++ f))
  = match url.unescape p url.encodePath, url.unescape f url.encodeFragment with
    | Some decoded, Some _ => Ret decoded
    | _, _ => Panic
    end.
Proof.
  intros Hos Hauth Hslash Hq Hhash Hctl.
  destruct (parseAuthority "") as [host|] eqn:Ea; [|contradiction].
  unfold uriToPath, pathToURI, url.Parse.
  rewrite <- (append_assoc "file://" p ("#" ++ f)).
  change ("#" ++ f) with (String "#" f).
  rewrite (Cut_first _ _ _ (file_uri_no_hash p Hhash)).
  pose proof (parse_file_uri_query parseAuthority host p None Ea Hslash Hq) as Hparse.
  cbv zeta in Hparse. rewrite append_nil_r in Hparse.
  rewrite Hparse by (now rewrite file_uri_no_control).
  apply String.eqb_neq in Hos.
  destruct (url.unescape p url.encodePath) as [decoded|]; [|reflexivity].
  cbn [bind]. destruct (String.eqb_spec f "") as [-> | Hf].
  - simpl. now rewrite Hos.
  - destruct (url.unescape f url.encodeFragment); simpl; [now rewrite Hos | reflexivity].
Qed.

(** X10: a question mark cuts the path short: off Windows, the round trip
    of [p ++ "?" ++ q], for an absolute [p] without question mark, hash
    and control byte and a [q] without hash and control byte, yields the
    decoded [p] alone. *)
Theorem uriToPath_query `{Platform} (p q : string) :
  GOOS <> "windows" ->
  parseAuthority "" <> None ->
  strings.HasPrefix p "/" = true ->
  strings.Contains p "?" = false ->
  strings.Contains p "#" = false ->
  url.stringContainsCTLByte p = false ->
  strings.Contains q "#" = false ->
  url.stringContainsCTLByte q = false ->
  uriToPath (pathToURI (p ++ "?" ++ q))
  = match url.unescape p url.encodePath with
    | Some decoded => Ret decoded
    | None => Panic
    end.
Proof.
  intros Hos Hauth Hslash Hq Hhash Hctl Hqhash Hqctl.
  destruct (parseAuthority "") as [host|] eqn:Ea; [|contradiction].
  unfold uriToPath, pathToURI, url.Parse.
  assert (Hh : strings.Contains ("file://" ++ p ++ "?" ++ q) "#" = false).
  { apply file_uri_no_hash. rewrite Contains_byte_append, Hhash.
    change ("?" ++ q) with (String "?" q). now rewrite Contains_byte_cons, Hqhash. }
  rewrite (Cut_absent _ _ Hh).
  pose proof (parse_file_uri_query parseAuthority host p (Some q) Ea Hslash Hq)
    as Hparse.
  cbv zeta in Hparse. rewrite Hparse.
  - apply String.eqb_neq in Hos.
    destruct (url.unescape p url.encodePath); simpl; [now rewrite Hos | reflexivity].
  - rewrite file_uri_no_control, stringContainsCTLByte_append, Hctl.
    change ("?" ++ q) with (String "?" q). cbn [url.stringContainsCTLByte orb].
    exact Hqctl.
Qed.

(** What [url.parse] makes of [file://] followed by a path that starts with
    a segment other than the empty one: the segment is the authority. *)
Lemma parse_file_uri_host (authority : string -> option string)
      (first rest : string) :
  strings.Contains first "/" = false ->
  strings.Contains (first ++ "/" ++ rest) "?" = false ->
  url.stringContainsCTLByte ("file://" ++ first ++ "/" ++ rest) = false ->
  url.parse authority ("file://" ++ first ++ "/" ++ rest) false
  = match authority first with
    | Some host =>
        match url.unescape ("/" ++ rest) url.encodePath with
        | Some x => Some (url.mkURL "file" "" host x "" "")
        | None => None
        end
    | None => None
    end.
Proof.
  intros Hfirst Hq Hctl.
  pose proof (query_split (first ++ "/" ++ rest) None Hq) as Hsplit.
  cbv zeta in Hsplit. rewrite append_nil_r in Hsplit.
  unfold url.parse. rewrite Hctl.
  change (("file://" ++ first ++ "/" ++ rest =? "")%string && false) with false.
  change ("file://" ++ first ++ "/" ++ rest =? "*")%string with false.
  change (url.getScheme ("file://" ++ first ++ "/" ++ rest))
    with (Some ("file", "//" ++ first ++ "/" ++ rest)).
  cbv beta iota zeta delta [bind].
  rewrite Hsplit. cbv beta iota zeta.
  change (strings.ToLower "file") with "file".
  change (strings.HasPrefix ("//" ++ first ++ "/" ++ rest) "/")
    with (strings.HasPrefix (String "/" (String "/" (first ++ "/" ++ rest))) "/").
  change (strings.HasPrefix ("//" ++ first ++ "/" ++ rest) "//")
    with (strings.HasPrefix (String "/" (String "/" (first ++ "/" ++ rest))) "//").
  rewrite !HasPrefix_cons, !HasPrefix_nil.
  change (strings.drop 2 ("//" ++ first ++ "/" ++ rest))
    with (first ++ String "/" rest).
  rewrite (Index_byte_first first rest "/" Hfirst).
  destruct (Z.geb_spec (Z.of_nat (length first)) 0); [|lia].
  cbn -[url.unescape strings.take strings.drop Z.to_nat].
  rewrite Nat2Z.id, take_append.
  rewrite <- (Nat.add_0_r (length first)), drop_append_more.
  cbn [strings.drop].
  destruct (authority first); [|reflexivity].
  cbn [bind]. change (String "/" rest) with ("/" ++ rest).
  destruct (url.unescape ("/" ++ rest) url.encodePath); reflexivity.
Qed.

(** X21: the first segment of a relative path is taken for the authority
    of the URI and does not come back: off Windows, the round trip of
    [first/rest], without question mark, hash and control byte, yields
    [/rest] with its percent escapes decoded, and panics when the authority
    is refused or an escape is malformed. *)
Theorem uriToPath_relative `{Platform} (first rest : string) :
  GOOS <> "windows" ->
  strings.Contains first "/" = false ->
  strings.Contains (first ++ "/" ++ rest) "?" = false ->
  strings.Contains (first ++ "/" ++ rest) "#" = false ->
  url.stringContainsCTLByte (first ++ "/" ++ rest) = false ->
  uriToPath (pathToURI (first ++ "/" ++ rest))
  = match parseAuthority first, url.unescape ("/" ++ rest) url.encodePath with
    | Some _, Some decoded => Ret decoded
    | _, _ => Panic
    end.
Proof.
  intros Hos Hfirst Hq Hhash Hctl.
  unfold uriToPath, pathToURI, url.Parse.
  rewrite (Cut_absent _ _ (file_uri_no_hash _ Hhash)).
  rewrite (parse_file_uri_host parseAuthority first rest Hfirst Hq)
    by (now rewrite file_uri_no_control).
  apply String.eqb_neq in Hos.
  destruct (parseAuthority first); [|reflexivity].
  destruct (url.unescape ("/" ++ rest) url.encodePath); simpl;
    [now rewrite Hos | reflexivity].
Qed.

(** * Further properties of the signature-help handler *)

Section SignatureExtras.

Context {toolchain : Toolchain}.

Import ast loader lsp.

Lemma resolvedDecl_inv (tc : TypecheckResult) (call : CallExpr) (d : FuncDecl) :
  resolvedDecl tc = Some (call, d) ->
  exists c,
    callExpr (tc_fset tc) (tc_nodes tc) = Some call
    /\ callExpr (Fset (tc_program tc))
         (PathEnclosingInterval (tc_program tc) (Pos (Fun call)) (Pos (Fun call)))
       = Some c
    /\ funcDecl (tc_program tc) (tc_pkg tc) c = Some d
    /\ (forall msg, tc_err tc <> Some (otherError msg)).
Proof.
  unfold resolvedDecl, bind. intros Hres.
  destruct (tc_err tc) as [[msg|msg]|]; try discriminate;
    destruct (callExpr (tc_fset tc) (tc_nodes tc)) as [call'|] eqn:Ecall;
    try discriminate;
    destruct (callExpr _ (PathEnclosingInterval _ (Pos (Fun call')) _))
      as [c|] eqn:Ec; try discriminate;
    destruct (funcDecl _ _ c) as [d'|] eqn:Ed; try discriminate;
    injection Hres as -> ->; exists c; repeat split; try reflexivity;
    try assumption; intros; discriminate.
Qed.

Lemma appendFields_panic (pkg : PackageInfo) (fields : list Field)
      (labels : list string) :
  typesRecorded pkg {| List := fields |} = false ->
  appendFields labels fields pkg = Panic.
Proof.
  unfold typesRecorded; cbn [List].
  revert labels; induction fields as [|f fields IH]; intros labels;
    cbn [forallb appendFields]; [discriminate|].
  destruct (TypeOf pkg (Field_Type f)); [apply IH | reflexivity].
Qed.

Lemma parametersAsString_panic (pkg : PackageInfo) (fields : FieldList) :
  typesRecorded pkg fields = false -> parametersAsString fields pkg = Panic.
Proof. destruct fields as [fields]. apply appendFields_panic. Qed.

(** X11: the handler returns an error exactly when [typecheck] returned an
    error other than the invalid-node error; it is that error, and there is
    no result beside it.  The invalid-node error never reaches the
    caller. *)
Theorem handler_error_iff (h : LangHandler) (params : TextDocumentPositionParams)
        (result : option SignatureHelp) (e : error) :
  handleTextDocumentSignatureHelp h params = Ret (result, Some e)
  <-> (tc_err (typecheck h (URI (TextDocument params)) (Position_ params)) = Some e
       /\ result = None
       /\ exists msg, e = otherError msg).
Proof.
  unfold handleTextDocumentSignatureHelp.
  set (tc := typecheck h (URI (TextDocument params)) (Position_ params)).
  split.
  - destruct (tc_err tc) as [[msg|msg]|];
      try (intros [= <- <-]; repeat split; now exists msg);
      (destruct (callExpr (tc_fset tc) (tc_nodes tc)) as [call|];
       [|discriminate];
       destruct (funcInfo (tc_program tc) (tc_pkg tc) (Fun call))
         as [[[signature parameters] doc]|]; cbn [exec_bind]; [|discriminate];
       destruct (signature =? "")%string; discriminate).
  - intros (Herr & -> & msg & ->). now rewrite Herr.
Qed.

(** X12: every result the handler returns comes without error and holds
    exactly one signature, with a non-empty label and active signature 0;
    the active parameter is at least 0, at most the number of arguments of
    the call, below the number of parameter labels when there are any, and
    0 when there are none. *)
Theorem handler_answer_shape (h : LangHandler)
        (params : TextDocumentPositionParams) (help : SignatureHelp)
        (e : option error) :
  let tc := typecheck h (URI (TextDocument params)) (Position_ params) in
  handleTextDocumentSignatureHelp h params = Ret (Some help, e) ->
  e = None
  /\ exists info call,
       Signatures help = [info]
       /\ ActiveSignature help = 0
       /\ Label info <> ""
       /\ callExpr (tc_fset tc) (tc_nodes tc) = Some call
       /\ 0 <= ActiveParameter help <= Z.of_nat (List.length (Args call))
       /\ (Parameters info <> [] ->
           ActiveParameter help < Z.of_nat (List.length (Parameters info)))
       /\ (Parameters info = [] -> ActiveParameter help = 0).
Proof.
  intros tc. unfold handleTextDocumentSignatureHelp. fold tc.
  destruct (tc_err tc) as [[msg|msg]|]; try discriminate;
    (destruct (callExpr (tc_fset tc) (tc_nodes tc)) as [call|];
     [|discriminate];
     destruct (funcInfo (tc_program tc) (tc_pkg tc) (Fun call))
       as [[[signature parameters] doc]|]; cbn [exec_bind]; [|discriminate];
     destruct (String.eqb_spec signature "") as [|Hsig]; [discriminate|];
     intros [= <- <-]; split; [reflexivity|];
     eexists; exists call;
     cbn [Signatures ActiveSignature ActiveParameter Label Parameters];
     split; [reflexivity|]; split; [reflexivity|]; split; [exact Hsig|];
     split; [reflexivity|];
     pose proof (Zle_0_nat (List.length parameters)) as Hn;
     rewrite length_map;
     destruct (Z.gtb_spec (Z.of_nat (List.length parameters)) 0);
     match goal with
     | |- context [if ?a >? ?b then _ else _] => destruct (Z.gtb_spec a b)
     end;
     destruct parameters as [|p0 parameters]; cbn [map List.length] in *;
     repeat split; try lia; try discriminate;
     try (intros Hne; now destruct Hne);
     intros _; cbn [Parameters List.length]; rewrite length_map; lia).
Qed.

(** X13: the handler panics exactly when the request resolves to a
    declaration for one of whose parameter groups the package of the call
    records no type: the nil type's [String] is called. *)
Theorem handler_panics_iff (h : LangHandler) (params : TextDocumentPositionParams) :
  let tc := typecheck h (URI (TextDocument params)) (Position_ params) in
  handleTextDocumentSignatureHelp h params = Panic
  <-> exists call d,
        resolvedDecl tc = Some (call, d)
        /\ typesRecorded (tc_pkg tc) (Params (FuncDecl_Type d)) = false.
Proof.
  intros tc. split.
  - unfold handleTextDocumentSignatureHelp, resolvedDecl, bind, funcInfo. fold tc.
    rewrite callExpr_fset with (fset' := Fset (tc_program tc)).
    destruct (tc_err tc) as [[msg|msg]|]; try discriminate;
      (destruct (callExpr (Fset (tc_program tc)) (tc_nodes tc)) as [call|];
       [|discriminate];
       rewrite funcInfo_from_spec;
       destruct (callExpr (Fset (tc_program tc)) _) as [c|];
       [|cbn; discriminate];
       destruct (funcDecl (tc_program tc) (tc_pkg tc) c) as [d|];
       [|cbn; discriminate];
       destruct (typesRecorded (tc_pkg tc) (Params (FuncDecl_Type d))) eqn:Hrec;
       [ rewrite (parametersAsString_spec _ _ Hrec); cbn [exec_bind];
         match goal with
         | |- context [(?s =? "")%string] => destruct (s =? "")%string
         end; discriminate
       | intros _; now exists call, d ]).
  - intros (call & d & Hres & Hrec).
    destruct (resolvedDecl_inv tc call d Hres) as (c & Hcall & Hc & Hd & Herr).
    unfold handleTextDocumentSignatureHelp. fold tc.
    destruct (tc_err tc) as [[msg|msg]|]; [ | now destruct (Herr msg) | ];
      (rewrite Hcall; unfold funcInfo;
       now rewrite funcInfo_from_spec, Hc, Hd, (parametersAsString_panic _ _ Hrec)).
Qed.

(** X14: whenever type checking does not fail and the request resolves to
    no declaration (no call around the cursor, no call at the start of the
    callee, or no declaration found for it), the answer is empty, without
    error. *)
Theorem unresolved_empty (h : LangHandler) (params : TextDocumentPositionParams) :
  let tc := typecheck h (URI (TextDocument params)) (Position_ params) in
  (forall msg, tc_err tc <> Some (otherError msg)) ->
  resolvedDecl tc = None ->
  handleTextDocumentSignatureHelp h params = Ret (None, None).
Proof.
  intros tc Herr.
  unfold handleTextDocumentSignatureHelp, resolvedDecl, bind, funcInfo. fold tc.
  rewrite callExpr_fset with (fset' := Fset (tc_program tc)).
  destruct (tc_err tc) as [[msg|msg]|]; [ | now destruct (Herr msg) | ];
    (destruct (callExpr (Fset (tc_program tc)) (tc_nodes tc)) as [call|];
     [|reflexivity];
     rewrite funcInfo_from_spec;
     destruct (callExpr (Fset (tc_program tc)) _) as [c|]; [|reflexivity];
     destruct (funcDecl (tc_program tc) (tc_pkg tc) c) as [d|];
     [discriminate | reflexivity]).
Qed.

(** X15: [callExpr] returns the innermost call expression of the path: the
    first node of the path that is a call, none before it being one. *)
Theorem callExpr_innermost (fset : token.FileSet) (nodes : list Node)
        (call : CallExpr) :
  callExpr fset nodes = Some call
  <-> exists inner outer,
        nodes = (inner ++ NExpr (ECall call) :: outer)%list
        /\ forall node, In node inner -> asCallExpr node = None.
Proof.
  split.
  - induction nodes as [|n nodes IH]; cbn [callExpr]; [discriminate|].
    destruct (asCallExpr n) as [c|] eqn:En.
    + intros [= ->]. exists [], nodes. split; [|intros ? []].
      destruct n as [[id|X Sel|c|a b]|d|a b]; try discriminate.
      now injection En as ->.
    + intros Hc. destruct (IH Hc) as (inner & outer & -> & Hno).
      exists (n :: inner), outer. split; [reflexivity|].
      intros node [<- | Hin]; [exact En | now apply Hno].
  - intros (inner & outer & -> & Hno).
    induction inner as [|n inner IH]; cbn [app callExpr asCallExpr];
      [reflexivity|].
    rewrite (Hno n) by now left. apply IH. intros node Hin. apply Hno. now right.
Qed.

Lemma funcDecl_from_iff (path : list Node) (d : FuncDecl) :
  funcDecl_from path = Some d
  <-> exists inner outer,
        path = (inner ++ NFuncDecl d :: outer)%list
        /\ forall node, In node inner -> asFuncDecl node = None.
Proof.
  split.
  - induction path as [|n path IH]; cbn [funcDecl_from]; [discriminate|].
    destruct (asFuncDecl n) as [d'|] eqn:En.
    + intros [= ->]. exists [], path. split; [|intros ? []].
      destruct n; try discriminate. now injection En as ->.
    + intros Hd. destruct (IH Hd) as (inner & outer & -> & Hno).
      exists (n :: inner), outer. split; [reflexivity|].
      intros node [<- | Hin]; [exact En | now apply Hno].
  - intros (inner & outer & -> & Hno).
    induction inner as [|n inner IH]; cbn [app funcDecl_from asFuncDecl];
      [reflexivity|].
    rewrite (Hno n) by now left. apply IH. intros node Hin. apply Hno. now right.
Qed.

(** X16: the declaration [funcDecl] finds for a call is the innermost
    function declaration around the position of the object the callee's
    identifier denotes, whatever that object is; there is none when the
    identifier is not found, denotes no object, or its object has no
    position. *)
Theorem funcDecl_iff (prog : Program) (pkg : PackageInfo) (c : CallExpr)
        (d : FuncDecl) :
  funcDecl prog pkg c = Some d
  <-> exists id o inner outer,
        ident prog pkg (Fun c) = Some id
        /\ ObjectOf pkg id = Some o
        /\ types.Pos o <> token.NoPos
        /\ PathEnclosingInterval prog (types.Pos o) (types.Pos o)
           = (inner ++ NFuncDecl d :: outer)%list
        /\ forall node, In node inner -> asFuncDecl node = None.
Proof.
  unfold funcDecl, token.IsValid. split.
  - destruct (ident prog pkg (Fun c)) as [id|] eqn:Eid; [|discriminate].
    destruct (ObjectOf pkg id) as [o|] eqn:Eo; [|discriminate].
    destruct (Z.eqb_spec (types.Pos o) token.NoPos) as [|Hpos]; [discriminate|].
    cbn [negb]. intros Hd. apply funcDecl_from_iff in Hd as (inner & outer & E & Hno).
    exists id, o, inner, outer. repeat split; auto.
  - intros (id & o & inner & outer & -> & -> & Hpos & E & Hno).
    apply Z.eqb_neq in Hpos. rewrite Hpos. cbn [negb].
    apply funcDecl_from_iff. now exists inner, outer.
Qed.

(** X17: a call whose callee's identifier denotes no object, or an object
    without position (a built-in), is answered with the empty result. *)
Theorem unknown_callee_empty (h : LangHandler) (params : TextDocumentPositionParams)
        (call c : CallExpr) (id : Ident) :
  let tc := typecheck h (URI (TextDocument params)) (Position_ params) in
  let prog := tc_program tc in
  (forall msg, tc_err tc <> Some (otherError msg)) ->
  callExpr (tc_fset tc) (tc_nodes tc) = Some call ->
  callExpr (Fset prog)
    (PathEnclosingInterval prog (Pos (Fun call)) (Pos (Fun call))) = Some c ->
  ident prog (tc_pkg tc) (Fun c) = Some id ->
  (ObjectOf (tc_pkg tc) id = None
   \/ exists o, ObjectOf (tc_pkg tc) id = Some o /\ types.Pos o = token.NoPos) ->
  handleTextDocumentSignatureHelp h params = Ret (None, None).
Proof.
  intros tc prog Herr Hcall Hc Hid Hobj.
  assert (Hd : funcDecl prog (tc_pkg tc) c = None).
  { unfold funcDecl. rewrite Hid.
    destruct Hobj as [-> | (o & -> & Hpos)]; [reflexivity|].
    unfold token.IsValid. now rewrite Hpos. }
  unfold handleTextDocumentSignatureHelp. fold tc.
  rewrite Hcall. unfold funcInfo. fold prog.
  rewrite funcInfo_from_spec, Hc, Hd. cbn [exec_bind].
  destruct (tc_err tc) as [[msg|msg]|]; try reflexivity.
  now destruct (Herr msg).
Qed.

Lemma declaredLabels_unnamed (pkg : PackageInfo) (fields : FieldList) :
  (forall field, In field (List fields) -> Names field = []) ->
  declaredLabels pkg fields = [].
Proof.
  unfold declaredLabels. induction (List fields) as [|f fs IH]; [reflexivity|].
  intros Hno. cbn [flat_map]. unfold fieldLabels at 1.
  rewrite (Hno f) by now left. cbn [map app]. apply IH.
  intros field Hin. apply Hno. now right.
Qed.

(** X18: for a declaration whose parameters all go unnamed, the answer has
    no parameter labels: its label is the rendering with the empty
    parentheses left as they are, and the active parameter is 0. *)
Theorem unnamed_parameters (h : LangHandler) (params : TextDocumentPositionParams)
        (call : CallExpr) (d : FuncDecl) :
  let tc := typecheck h (URI (TextDocument params)) (Position_ params) in
  let printed := nodeAsString (NFuncDecl (clone d)) (Fset (tc_program tc)) in
  resolvedDecl tc = Some (call, d) ->
  typesRecorded (tc_pkg tc) (Params (FuncDecl_Type d)) = true ->
  (forall field, In field (List (Params (FuncDecl_Type d))) -> Names field = []) ->
  printed <> "" ->
  handleTextDocumentSignatureHelp h params
  = Ret (Some {| Signatures := [ {| Label := printed;
                                    Documentation := docText d;
                                    Parameters := [] |} ];
                 ActiveSignature := 0;
                 ActiveParameter := 0 |}, None).
Proof.
  intros tc printed Hres Hrec Hno Hprinted.
  rewrite (handle_resolved h params call d Hres Hrec). fold tc printed.
  apply String.eqb_neq in Hprinted. rewrite Hprinted.
  rewrite (declaredLabels_unnamed _ _ Hno). cbn [map List.length strings.Join].
  do 3 f_equal. now destruct (List.length (Args call)).
Qed.

(** X19: the documentation of the answer is the text of the declaration's
    comment group, and empty for a declaration without one (the rendering
    itself is made without it). *)
Theorem documentation_of_declaration (h : LangHandler)
        (params : TextDocumentPositionParams) (call : CallExpr) (d : FuncDecl) :
  let tc := typecheck h (URI (TextDocument params)) (Position_ params) in
  resolvedDecl tc = Some (call, d) ->
  typesRecorded (tc_pkg tc) (Params (FuncDecl_Type d)) = true ->
  nodeAsString (NFuncDecl (clone d)) (Fset (tc_program tc)) <> "" ->
  exists help info,
    handleTextDocumentSignatureHelp h params = Ret (Some help, None)
    /\ Signatures help = [info]
    /\ Documentation info = match Doc d with
                            | Some group => CommentGroup_Text group
                            | None => ""
                            end.
Proof.
  intros tc Hres Hrec Hprinted.
  rewrite (handle_resolved h params call d Hres Hrec). fold tc.
  apply String.eqb_neq in Hprinted. rewrite Hprinted.
  do 2 eexists. repeat split.
Qed.

End SignatureExtras.

(** ** The further properties on the platforms and the small programs *)

Lemma PathTrimPrefix_PathHasPrefix_witness :
  "/go/src/pkg"
  = "/go/src" ++ separator (platform := linux)
    ++ PathTrimPrefix (platform := linux) "/go/src/pkg" "/go/src".
Proof.
  apply (PathTrimPrefix_PathHasPrefix (H := linux) "/go/src/pkg" "/go/src");
    [reflexivity | discriminate | reflexivity | discriminate].
Defined.

Lemma PathHasPrefix_trans_witness :
  PathHasPrefix (platform := linux) "/go/src/pkg/x" "/go" = true.
Proof.
  apply (PathHasPrefix_trans (H := linux) "/go/src/pkg/x" "/go/src" "/go");
    reflexivity.
Defined.

Lemma IsVendorDir_child_witness :
  IsVendorDir "src/vendor/pkg" = true <-> In "vendor" (segments "src/vendor").
Proof. apply (IsVendorDir_child "src/vendor" "pkg"). reflexivity. Defined.

Lemma uriToPath_unescapes_witness :
  uriToPath (platform := linux) (pathToURI "/my%20files/a.go")
  = Ret "/my files/a.go".
Proof.
  apply (uriToPath_unescapes (H := linux) "/my%20files/a.go");
    try reflexivity; discriminate.
Defined.

Lemma uriToPath_windows_witness :
  uriToPath (platform := windows) (pathToURI "/d:/go/src") = Ret "d:\go\src".
Proof.
  apply (uriToPath_windows (H := windows) "/d:/go/src");
    try reflexivity; discriminate.
Defined.

Lemma uriToPath_fragment_witness :
  uriToPath (platform := linux) (pathToURI ("/src/notes" ++ "#" ++ "1.txt"))
  = Ret "/src/notes".
Proof.
  apply (uriToPath_fragment (H := linux) "/src/notes" "1.txt");
    try reflexivity; discriminate.
Defined.

Lemma uriToPath_query_witness :
  uriToPath (platform := linux) (pathToURI ("/src/what" ++ "?" ++ ".txt"))
  = Ret "/src/what".
Proof.
  apply (uriToPath_query (H := linux) "/src/what" ".txt");
    try reflexivity; discriminate.
Defined.

Lemma uriToPath_relative_witness :
  uriToPath (platform := localhost) (pathToURI ("localhost" ++ "/" ++ "src/a.go"))
  = Ret "/src/a.go".
Proof.
  apply (uriToPath_relative (H := localhost) "localhost" "src/a.go");
    try reflexivity; discriminate.
Defined.

Section DemoExtras.

Import ast loader lsp.

#[local] Existing Instance demo.tools.

Lemma handler_answer_shape_witness :
  @None error = None
  /\ exists info call,
       Signatures AddHelp = [info]
       /\ ActiveSignature AddHelp = 0
       /\ Label info <> ""
       /\ callExpr (tc_fset (demo.snapshot 20)) (tc_nodes (demo.snapshot 20))
          = Some call
       /\ 0 <= ActiveParameter AddHelp <= Z.of_nat (List.length (Args call))
       /\ (Parameters info <> [] ->
           ActiveParameter AddHelp < Z.of_nat (List.length (Parameters info)))
       /\ (Parameters info = [] -> ActiveParameter AddHelp = 0).
Proof.
  apply (handler_answer_shape demo.handler (demo.at_column 20) AddHelp None).
  reflexivity.
Defined.

Lemma unresolved_empty_witness :
  handleTextDocumentSignatureHelp demo.handler (demo.at_column 60)
  = Ret (None, None).
Proof.
  apply (unresolved_empty demo.handler (demo.at_column 60));
    [intros msg; discriminate | reflexivity].
Defined.

Lemma unknown_callee_empty_witness :
  handleTextDocumentSignatureHelp demo2.handler (demo2.at_column 30)
  = Ret (None, None).
Proof.
  apply (unknown_callee_empty demo2.handler (demo2.at_column 30)
           demo2.LenCall demo2.LenCall (demo2.name 350 "len"));
    [intros msg; discriminate | reflexivity | reflexivity | reflexivity |].
  right. now exists {| types.Pos := token.NoPos |}.
Defined.

Lemma unnamed_parameters_witness :
  handleTextDocumentSignatureHelp demo2.handler (demo2.at_column 20)
  = Ret (Some {| Signatures := [ {| Label := "func Pair() int";
                                    Documentation := "";
                                    Parameters := [] |} ];
                 ActiveSignature := 0;
                 ActiveParameter := 0 |}, None).
Proof.
  refine (unnamed_parameters demo2.handler (demo2.at_column 20)
            demo2.PairCall demo2.PairDecl eq_refl eq_refl _ _).
  - intros field [<- | [<- | []]]; reflexivity.
  - now vm_compute.
Defined.

Lemma documentation_of_declaration_witness :
  exists help info,
    handleTextDocumentSignatureHelp demo.handler (demo.at_column 20)
    = Ret (Some help, None)
    /\ Signatures help = [info]
    /\ Documentation info = "Add adds." ++ demo.lineFeed.
Proof.
  refine (documentation_of_declaration demo.handler (demo.at_column 20)
            demo.AddCall demo.AddDecl eq_refl eq_refl _).
  now vm_compute.
Defined.

End DemoExtras.

(** * The answers of the handler *)

Section SignatureAnswers.

Context {toolchain : Toolchain}.

Import ast loader lsp.

Lemma handle_unresolved (h : LangHandler) (params : TextDocumentPositionParams) :
  resolvedDecl (typecheck h (URI (TextDocument params)) (Position_ params)) = None ->
  exists e, handleTextDocumentSignatureHelp h params = Ret (None, e).
Proof.
  set (tc := typecheck h (URI (TextDocument params)) (Position_ params)).
  unfold handleTextDocumentSignatureHelp, resolvedDecl, bind, funcInfo. fold tc.
  rewrite callExpr_fset with (fset' := Fset (tc_program tc)).
  destruct (tc_err tc) as [[msg|msg]|]; [ | intros _; now eexists | ];
    (destruct (callExpr (Fset (tc_program tc)) (tc_nodes tc)) as [call|];
     [|intros _; now eexists];
     rewrite funcInfo_from_spec;
     destruct (callExpr (Fset (tc_program tc)) _) as [c|];
     [|intros _; now eexists];
     destruct (funcDecl (tc_program tc) (tc_pkg tc) c) as [d|];
     [discriminate | intros _; now eexists]).
Qed.

Lemma handle_unrecorded (h : LangHandler) (params : TextDocumentPositionParams)
      (call : CallExpr) (d : FuncDecl) :
  let tc := typecheck h (URI (TextDocument params)) (Position_ params) in
  resolvedDecl tc = Some (call, d) ->
  typesRecorded (tc_pkg tc) (Params (FuncDecl_Type d)) = false ->
  handleTextDocumentSignatureHelp h params = Panic.
Proof.
  intros tc Hres Hrec.
  destruct (resolvedDecl_inv tc call d Hres) as (c & Hcall & Hc & Hd & Herr).
  unfold handleTextDocumentSignatureHelp. fold tc.
  destruct (tc_err tc) as [[msg|msg]|]; [ | now destruct (Herr msg) | ];
    (rewrite Hcall; unfold funcInfo;
     now rewrite funcInfo_from_spec, Hc, Hd, (parametersAsString_panic _ _ Hrec)).
Qed.

(** Where an answer comes from: the request resolves to a declaration, the
    package records the types of its parameters, its rendering is not
    empty, and the answer is built from these. *)
Lemma handle_answer_inv (h : LangHandler) (params : TextDocumentPositionParams)
      (help : SignatureHelp) (e : option error) :
  let tc := typecheck h (URI (TextDocument params)) (Position_ params) in
  handleTextDocumentSignatureHelp h params = Ret (Some help, e) ->
  exists call d,
    resolvedDecl tc = Some (call, d)
    /\ typesRecorded (tc_pkg tc) (Params (FuncDecl_Type d)) = true
    /\ e = None
    /\ let labels := declaredLabels (tc_pkg tc) (Params (FuncDecl_Type d)) in
       let printed := nodeAsString (NFuncDecl (clone d)) (Fset (tc_program tc)) in
       printed <> ""
       /\ help = {| Signatures :=
                      [ {| Label := strings.Replace printed "()"
                                      ("(" ++ strings.Join labels ", " ++ ")") 1;
                           Documentation := docText d;
                           Parameters :=
                             map (fun p => {| ParameterInformation_Label := p |})
                                 labels |} ];
                    ActiveSignature := 0;
                    ActiveParameter :=
                      Z.min (Z.max (Z.of_nat (List.length labels) - 1) 0)
                            (Z.of_nat (List.length (Args call))) |}.
Proof.
  intros tc Hret.
  destruct (resolvedDecl tc) as [[call d]|] eqn:Hres.
  - destruct (typesRecorded (tc_pkg tc) (Params (FuncDecl_Type d))) eqn:Hrec.
    + rewrite (handle_resolved h params call d Hres Hrec) in Hret. fold tc in Hret.
      exists call, d. split; [reflexivity|]. split; [exact Hrec|].
      cbv zeta.
      destruct (String.eqb_spec
                  (nodeAsString (NFuncDecl (clone d)) (Fset (tc_program tc))) "")
        as [|Hne]; [discriminate|].
      injection Hret as <- <-. repeat split. exact Hne.
    + rewrite (handle_unrecorded h params call d Hres Hrec) in Hret. discriminate.
  - destruct (handle_unresolved h params Hres) as [e' He'].
    rewrite He' in Hret. discriminate.
Qed.




(** X23: in every answer with n > 0 parameter labels, for the call around
    the cursor with m arguments, the active parameter is min (n - 1) m,
    which lies between 0 and n - 1. *)
Theorem activeParameter_of_answer (h : LangHandler)
        (params : TextDocumentPositionParams) (help : SignatureHelp)
        (e : option error) :
  let tc := typecheck h (URI (TextDocument params)) (Position_ params) in
  handleTextDocumentSignatureHelp h params = Ret (Some help, e) ->
  exists info call,
    Signatures help = [info]
    /\ callExpr (tc_fset tc) (tc_nodes tc) = Some call
    /\ let n := Z.of_nat (List.length (Parameters info)) in
       let m := Z.of_nat (List.length (Args call)) in
       n > 0 ->
       ActiveParameter help = Z.min (n - 1) m
       /\ 0 <= ActiveParameter help <= n - 1.
Proof.
  intros tc Hret.
  destruct (handle_answer_inv h params help e Hret)
    as (call & d & Hres & _ & _ & _ & ->).
  destruct (resolvedDecl_inv tc call d Hres) as (c & Hcall & _).
  eexists; exists call. split; [reflexivity|]. split; [exact Hcall|].
  cbv zeta. cbn [Parameters ActiveParameter]. rewrite length_map. lia.
Qed.

End SignatureAnswers.

(** ** Answers on the small programs, and where the handler departs from
    the specification *)

Section Departures.

Import ast loader lsp.

#[local] Existing Instance demo.tools.


Lemma activeParameter_of_answer_witness :
  exists info call,
    Signatures AddHelp = [info]
    /\ callExpr (tc_fset (demo.snapshot 20)) (tc_nodes (demo.snapshot 20))
       = Some call
    /\ (Z.of_nat (List.length (Parameters info)) > 0 ->
        ActiveParameter AddHelp
        = Z.min (Z.of_nat (List.length (Parameters info)) - 1)
                (Z.of_nat (List.length (Args call)))
        /\ 0 <= ActiveParameter AddHelp
             <= Z.of_nat (List.length (Parameters info)) - 1).
Proof.
  apply (activeParameter_of_answer demo.handler (demo.at_column 20) AddHelp None).
  reflexivity.
Defined.

(** C2, at a failing input, a callable with unnamed parameters: [Pair]
    declares two parameters and is called with two arguments, so the active
    parameter should be min (2 - 1) 2 = 1; no label is made for an unnamed
    parameter, the handler counts the labels, and answers 0. *)
Theorem unnamed_parameters_activeParameter :
  resolvedDecl (demo2.snapshot 20) = Some (demo2.PairCall, demo2.PairDecl)
  /\ parameterCount (Params (FuncDecl_Type demo2.PairDecl)) = 2%nat
  /\ List.length (Args demo2.PairCall) = 2%nat
  /\ exists help,
       handleTextDocumentSignatureHelp demo2.handler (demo2.at_column 20)
       = Ret (Some help, None)
       /\ ActiveParameter help = 0
       /\ ActiveParameter help <> Z.min (2 - 1) 2.
Proof.
  repeat split. eexists. split; [reflexivity|]. split; [reflexivity | discriminate].
Qed.

(** C3, at a failing input, a chain of calls: with the cursor in the
    arguments of [d] in [x.b(1).d("u", )], the call around the cursor is
    the call of the method [d], declared with the parameters [s string] and
    [k int], but the answer carries the label and the parameter of [b]:
    [funcInfo] looks for the call at the start of the callee, where the
    call of [b] starts too. *)
Theorem chained_call_labels :
  callExpr (tc_fset (demo3.snapshot 40)) (tc_nodes (demo3.snapshot 40))
  = Some demo3.OuterCall
  /\ Fun demo3.OuterCall = ESelector (ECall demo3.InnerCall) (demo3.name 537 "d")
  /\ ObjectOf demo3.pkg (demo3.name 537 "d")
     = Some {| types.Pos := NamePos (FuncDecl_Name demo3.DDecl) |}
  /\ declaredLabels demo3.pkg (Params (FuncDecl_Type demo3.DDecl))
     = ["s string"; "k int"]
  /\ handleTextDocumentSignatureHelp demo3.handler (demo3.at_column 40)
     = Ret (Some {| Signatures :=
                      [ {| Label := "func (x T) b(n int) T";
                           Documentation := "";
                           Parameters :=
                             [ {| ParameterInformation_Label := "n int" |} ] |} ];
                    ActiveSignature := 0;
                    ActiveParameter := 0 |}, None).
Proof. repeat split. Qed.

(** A callee declared in another package: the package of the call records
    no type for the parameter of [Greet], [pkg.TypeOf] returns the nil
    type, and the handler panics on its [String]. *)
Lemma cross_package_call_panics :
  resolvedDecl (demo3.snapshot 60) = Some (demo3.GreetCall, demo3.GreetDecl)
  /\ typesRecorded demo3.pkg (Params (FuncDecl_Type demo3.GreetDecl)) = false
  /\ handleTextDocumentSignatureHelp demo3.handler (demo3.at_column 60) = Panic.
Proof. repeat split. Qed.

End Departures.
